(** * skymovieScrape: the listing scraper of [scraper.py]

    A shallow embedding of the scraper and the properties its
    description states about it.

    Conventions of the embedding.
    - A Python [str] is a [string]; a character is a code point below 256
      (the Latin-1 range), classified as CPython classifies it.
    - A [dict] is an association list in insertion order, as pandas reads
      the keys of the records in that order.
    - [None] is [VNone] in a dict and [None] of an [option] elsewhere.
    - What the libraries compute from HTML and URLs (BeautifulSoup's
      [find_all] and [find], [urllib.parse.urljoin]) is a parameter of the
      development; what the network answers is an argument of every run,
      and so is the order in which the futures complete. *)

From Stdlib Require Import String Ascii List Arith Lia Bool Permutation.
From Stdlib Require Import DecimalString DecimalNat NArith.
Import ListNotations.

Local Open Scope string_scope.
Local Open Scope list_scope.
Local Open Scope nat_scope.

(** ** Python string primitives *)

Module Py.

(** [str.isspace] of one character, which is also what [\s] matches in
    a [str] pattern and what [strip()] removes. *)
Definition isspace (c : ascii) : bool :=
  let n := nat_of_ascii c in
  ((9 <=? n) && (n <=? 13)) || ((28 <=? n) && (n <=? 32))
  || (n =? 133) || (n =? 160).

(** [\d] in a [str] pattern: a decimal digit. *)
Definition isdecimal (c : ascii) : bool :=
  let n := nat_of_ascii c in (48 <=? n) && (n <=? 57).

(** [str.lower] of one character. *)
Definition lower_char (c : ascii) : ascii :=
  let n := nat_of_ascii c in
  if ((65 <=? n) && (n <=? 90))
     || ((192 <=? n) && (n <=? 222) && negb (n =? 215))
  then ascii_of_nat (n + 32) else c.

Fixpoint lower (s : string) : string :=
  match s with
  | EmptyString => EmptyString
  | String c s' => String (lower_char c) (lower s')
  end.

Fixpoint startswith (p s : string) : bool :=
  match p, s with
  | EmptyString, _ => true
  | String a p', String b s' => Ascii.eqb a b && startswith p' s'
  | String _ _, EmptyString => false
  end.

(** [needle in hay]. *)
Fixpoint contains (needle hay : string) : bool :=
  startswith needle hay
  || match hay with
     | EmptyString => false
     | String _ hay' => contains needle hay'
     end.

Fixpoint lstrip_by (p : ascii -> bool) (s : string) : string :=
  match s with
  | EmptyString => EmptyString
  | String c s' => if p c then lstrip_by p s' else s
  end.

Fixpoint rstrip_by (p : ascii -> bool) (s : string) : string :=
  match s with
  | EmptyString => EmptyString
  | String c s' =>
      match rstrip_by p s' with
      | EmptyString => if p c then EmptyString else String c EmptyString
      | t => String c t
      end
  end.

(** [s.strip()]. *)
Definition strip (s : string) : string :=
  rstrip_by isspace (lstrip_by isspace s).

Fixpoint mem_char (c : ascii) (chars : string) : bool :=
  match chars with
  | EmptyString => false
  | String d chars' => Ascii.eqb c d || mem_char c chars'
  end.

(** [s.rstrip(chars)]: trailing characters that occur in [chars] go. *)
Definition rstrip (chars s : string) : string :=
  rstrip_by (fun c => mem_char c chars) s.

(** [str(n)] of a natural number. *)
Definition str_of_nat (n : nat) : string :=
  NilEmpty.string_of_uint (Nat.to_uint n).

End Py.

(** ** The fragment of [re] the scraper uses

    A backtracking matcher in the list-of-successes style: [runs] lists
    every way a pattern matches a prefix of the subject, in the order in
    which [re] tries them, so its head is the match [re] reports.
    Repetition is on character classes, as in every pattern of the
    source. *)

Module Re.

Inductive regex : Type :=
| Eps
| Lit (c : ascii)
| Class (p : ascii -> bool)
| Seq (r1 r2 : regex)
| Alt (r1 r2 : regex)
| Opt (r : regex)
| Plus (p : ascii -> bool)
| LazyStar (p : ascii -> bool)
| Group (r : regex).

Record attempt : Type := mk_attempt {
  matched : string;
  group1 : option string;
  rest : string
}.

(** A literal under [re.IGNORECASE] ([ic = true]) or without it. *)
Definition lit_matches (ic : bool) (c x : ascii) : bool :=
  if ic then Ascii.eqb (Py.lower_char c) (Py.lower_char x)
  else Ascii.eqb c x.

(** [p+], greedy: the longest run first. *)
Fixpoint plus_greedy (p : ascii -> bool) (s : string)
  : list (string * string) :=
  match s with
  | EmptyString => []
  | String c s' =>
      if p c
      then map (fun mr => (String c (fst mr), snd mr)) (plus_greedy p s')
           ++ [(String c EmptyString, s')]
      else []
  end.

(** [p*?], lazy: the shortest run first. *)
Fixpoint star_lazy (p : ascii -> bool) (s : string)
  : list (string * string) :=
  (EmptyString, s)
  :: match s with
     | EmptyString => []
     | String c s' =>
         if p c
         then map (fun mr => (String c (fst mr), snd mr)) (star_lazy p s')
         else []
     end.

Definition later_group (g1 g2 : option string) : option string :=
  match g2 with Some _ => g2 | None => g1 end.

Fixpoint runs (ic : bool) (r : regex) (s : string) : list attempt :=
  match r with
  | Eps => [mk_attempt EmptyString None s]
  | Lit c =>
      match s with
      | String x s' =>
          if lit_matches ic c x
          then [mk_attempt (String x EmptyString) None s'] else []
      | EmptyString => []
      end
  | Class p =>
      match s with
      | String x s' =>
          if p x then [mk_attempt (String x EmptyString) None s'] else []
      | EmptyString => []
      end
  | Seq r1 r2 =>
      flat_map
        (fun a1 =>
           map (fun a2 =>
                  mk_attempt (matched a1 ++ matched a2)%string
                             (later_group (group1 a1) (group1 a2))
                             (rest a2))
               (runs ic r2 (rest a1)))
        (runs ic r1 s)
  | Alt r1 r2 => runs ic r1 s ++ runs ic r2 s
  | Opt r1 => runs ic r1 s ++ [mk_attempt EmptyString None s]
  | Plus p =>
      map (fun mr => mk_attempt (fst mr) None (snd mr)) (plus_greedy p s)
  | LazyStar p =>
      map (fun mr => mk_attempt (fst mr) None (snd mr)) (star_lazy p s)
  | Group r1 =>
      map (fun a => mk_attempt (matched a) (Some (matched a)) (rest a))
          (runs ic r1 s)
  end.

(** [re.search(r, s)]: the first match at the leftmost position that
    has one. *)
Fixpoint search (ic : bool) (r : regex) (s : string) : option attempt :=
  match runs ic r s with
  | a :: _ => Some a
  | [] =>
      match s with
      | EmptyString => None
      | String _ s' => search ic r s'
      end
  end.

(** [re.sub(r, repl, s)] for a replacement without group references.
    [skip] counts the characters of the subject still covered by the
    match just replaced. *)
Fixpoint sub_from (ic : bool) (r : regex) (repl s : string) (skip : nat)
  {struct s} : string :=
  match skip with
  | S k =>
      match s with
      | EmptyString => EmptyString
      | String _ s' => sub_from ic r repl s' k
      end
  | O =>
      match runs ic r s with
      | a :: _ =>
          (repl ++
           match String.length (matched a), s with
           | _, EmptyString => EmptyString
           | S n, String _ s' => sub_from ic r repl s' n
           | O, String c s' => String c (sub_from ic r repl s' 0)
           end)%string
      | [] =>
          match s with
          | EmptyString => EmptyString
          | String c s' => String c (sub_from ic r repl s' 0)
          end
      end
  end.

Definition sub (ic : bool) (r : regex) (repl s : string) : string :=
  sub_from ic r repl s 0.

(** A word of the pattern, letter by letter. *)
Fixpoint lits (w : string) : regex :=
  match w with
  | EmptyString => Eps
  | String c EmptyString => Lit c
  | String c w' => Seq (Lit c) (lits w')
  end.

(** [w1|w2|...]. *)
Fixpoint alts (rs : list regex) : regex :=
  match rs with
  | [] => Class (fun _ => false)
  | [r] => r
  | r :: rs' => Alt r (alts rs')
  end.

Definition digit : regex := Class Py.isdecimal.
Definition dot_class (c : ascii) : bool := negb (Ascii.eqb c "010"%char).

End Re.

(** ** Records *)

Inductive value : Type :=
| VNone
| VStr (s : string).

Definition dict : Type := list (string * value).

Fixpoint dict_get (k : string) (d : dict) : option value :=
  match d with
  | [] => None
  | (k', v) :: d' => if String.eqb k k' then Some v else dict_get k d'
  end.

(** [d[k] = v]: an existing key keeps its place. *)
Fixpoint dict_set (k : string) (v : value) (d : dict) : dict :=
  match d with
  | [] => [(k, v)]
  | (k', v') :: d' =>
      if String.eqb k k' then (k', v) :: d' else (k', v') :: dict_set k v d'
  end.

Definition keys (d : dict) : list string := map fst d.

(** ** Configuration *)

Definition BASE_URL : string := "https://skymovieshd.mba".
Definition REQUEST_DELAY : nat := 2.
Definition MAX_RETRIES : nat := 3.

(** ** Data extraction *)

(** [\((\d{4})\)] *)
Definition year_re : Re.regex :=
  Re.Seq (Re.Lit "("%char)
    (Re.Seq (Re.Group (Re.Seq Re.digit (Re.Seq Re.digit
                         (Re.Seq Re.digit Re.digit))))
            (Re.Lit ")"%char)).

(** [(720p|1080p|480p|4K|2160p)] *)
Definition quality_re : Re.regex :=
  Re.Group (Re.alts (map Re.lits ["720p"; "1080p"; "480p"; "4K"; "2160p"])).

(** [[0-9.]] *)
Definition size_char (c : ascii) : bool :=
  let n := nat_of_ascii c in ((48 <=? n) && (n <=? 57)) || (n =? 46).

(** [\[([0-9.]+\s?(?:GB|MB))\]] *)
Definition size_re : Re.regex :=
  Re.Seq (Re.Lit "["%char)
    (Re.Seq (Re.Group
               (Re.Seq (Re.Plus size_char)
                  (Re.Seq (Re.Opt (Re.Class Py.isspace))
                          (Re.Alt (Re.lits "GB") (Re.lits "MB")))))
            (Re.Lit "]"%char)).

(** [\(\d{4}\)], the year pattern without its group. *)
Definition year_tag_re : Re.regex :=
  Re.Seq (Re.Lit "("%char)
    (Re.Seq Re.digit (Re.Seq Re.digit (Re.Seq Re.digit
       (Re.Seq Re.digit (Re.Lit ")"%char))))).

(** [\[.*?\]] *)
Definition bracket_re : Re.regex :=
  Re.Seq (Re.Lit "["%char)
    (Re.Seq (Re.LazyStar Re.dot_class) (Re.Lit "]"%char)).

(** [(HDRip|BluRay|WEB-DL|HEVC|x264|x265|AAC|ESubs?|ORG\.?|Full|Movie)] *)
Definition noise_re : Re.regex :=
  Re.Group
    (Re.alts
       [Re.lits "HDRip"; Re.lits "BluRay"; Re.lits "WEB-DL"; Re.lits "HEVC";
        Re.lits "x264"; Re.lits "x265"; Re.lits "AAC";
        Re.Seq (Re.lits "ESub") (Re.Opt (Re.Lit "s"%char));
        Re.Seq (Re.lits "ORG") (Re.Opt (Re.Lit "."%char));
        Re.lits "Full"; Re.lits "Movie"]).

(** [\s+] *)
Definition spaces_re : Re.regex := Re.Plus Py.isspace.

Definition languages : list string :=
  ["Hindi"; "English"; "Tamil"; "Telugu"; "Bengali"; "Punjabi";
   "Marathi"; "Malayalam"; "Kannada"; "Gujarati"; "Urdu"; "Dual Audio"].

(** [m.group(1)] as a value of the record. *)
Definition group_value (a : Re.attempt) : value :=
  match Re.group1 a with
  | Some g => VStr g
  | None => VNone
  end.

(** [if m: info[k] = m.group(1)] *)
Definition set_if_match (k : string) (m : option Re.attempt) (info : dict)
  : dict :=
  match m with
  | Some a => dict_set k (group_value a) info
  | None => info
  end.

(** The [for lang in languages] loop with its [break]. *)
Fixpoint detect_language (langs : list string) (title_text : string)
  (info : dict) : dict :=
  match langs with
  | [] => info
  | lang :: langs' =>
      if Py.contains (Py.lower lang) (Py.lower title_text)
      then dict_set "language" (VStr lang) info
      else detect_language langs' title_text info
  end.

Definition clean (title_text : string) : string :=
  let clean_title := Re.sub false year_tag_re "" title_text in
  let clean_title := Re.sub true quality_re "" clean_title in
  let clean_title := Re.sub false bracket_re "" clean_title in
  let clean_title := Re.sub true noise_re "" clean_title in
  Py.strip (Re.sub false spaces_re " " clean_title).

Definition extract_movie_info (title_text : string) : dict :=
  let info :=
    [("title", VStr title_text); ("year", VNone); ("quality", VNone);
     ("language", VNone); ("file_size", VNone)] in
  let info := set_if_match "year" (Re.search false year_re title_text) info in
  let info :=
    set_if_match "quality" (Re.search true quality_re title_text) info in
  let info :=
    set_if_match "file_size" (Re.search true size_re title_text) info in
  let info := detect_language languages title_text info in
  dict_set "title" (VStr (clean title_text)) info.

(** [d[k]] for a key the record has: the five keys read from [info]
    below are always there (see [movie_record_reads]), so that no
    [KeyError] is raised. *)
Definition getitem (k : string) (d : dict) : value :=
  match dict_get k d with
  | Some v => v
  | None => VNone
  end.

(** ** The network and the log *)

(** What [session.get(url, timeout=TIMEOUT)] followed by
    [raise_for_status()] comes to: the body of the response, or an
    exception of [requests]. *)
Inductive get_result : Type :=
| GetOk (text : string)
| GetErr (e : string).

(** A session as one caller meets it: the outcome of its [n]-th request,
    counted from 0. Retries inside the transport adapter that
    [create_session] mounts happen within one request. *)
Definition session : Type := nat -> string -> get_result.

Inductive event : Type :=
| EvGet (url : string)
| EvSleep (secs : nat)
| EvWarning (msg : string)
| EvError (msg : string).

Definition is_get (e : event) : bool :=
  match e with EvGet _ => true | _ => false end.

Fixpoint sleeps (t : list event) : list nat :=
  match t with
  | [] => []
  | EvSleep n :: t' => n :: sleeps t'
  | _ :: t' => sleeps t'
  end.

Definition fetch_warning (url e : string) : string :=
  ("Error fetching " ++ url ++ ": " ++ e)%string.

Definition fetch_page (s : session) (url : string)
  : (string * option string) * list event :=
  match s 0 url with
  | GetOk text => ((url, Some text), [EvGet url])
  | GetErr e => ((url, None), [EvGet url; EvWarning (fetch_warning url e)])
  end.

Definition attempt_warning (attempt retries : nat) (url e : string)
  : string :=
  ("Attempt " ++ Py.str_of_nat (attempt + 1) ++ "/" ++ Py.str_of_nat retries
   ++ " failed for " ++ url ++ ": " ++ e)%string.

(** The body of [for attempt in range(retries)]. *)
Fixpoint get_page_content_loop (s : session) (url : string) (retries : nat)
  (attempts : list nat) : option string * list event :=
  match attempts with
  | [] => (None, [])
  | attempt :: later =>
      match s attempt url with
      | GetOk content => (Some content, [EvGet url])
      | GetErr e =>
          let warning := EvWarning (attempt_warning attempt retries url e) in
          if attempt <? retries - 1
          then
            let rt := get_page_content_loop s url retries later in
            (fst rt,
             EvGet url :: warning
             :: EvSleep (REQUEST_DELAY * (attempt + 1)) :: snd rt)
          else
            (None,
             [EvGet url; warning; EvError ("Failed to fetch " ++ url)%string])
      end
  end.

Definition get_page_content (s : session) (url : string) (retries : nat)
  : option string * list event :=
  get_page_content_loop s url retries (seq 0 retries).

(** ** Category scraping *)

(** The first [<a href=...>] of a listing [div]: [a['href']] and
    [a.get_text(strip=True)]. *)
Record anchor : Type := mk_anchor {
  href : string;
  get_text : string
}.

(** A future of the pool, named by what was submitted for it. *)
Definition future : Type := (nat * string)%type.

(** [as_completed]: the order in which the submitted futures complete. *)
Definition scheduler : Type := list future -> list future.

(** Every submitted future completes, once. *)
Definition completes_all (as_completed : scheduler) : Prop :=
  forall futures, Permutation futures (as_completed futures).

(** [page_results.sort(key=...)]: a stable sort. *)
Fixpoint insert_by_key {A : Type} (key : A -> nat) (x : A) (l : list A)
  : list A :=
  match l with
  | [] => [x]
  | y :: l' =>
      if key x <=? key y then x :: l else y :: insert_by_key key x l'
  end.

Fixpoint sort_by_key {A : Type} (key : A -> nat) (l : list A) : list A :=
  match l with
  | [] => []
  | x :: l' => insert_by_key key x (sort_by_key key l')
  end.

(** Strictly ascending keys. *)
Fixpoint ascending {A : Type} (key : A -> nat) (l : list A) : Prop :=
  match l with
  | [] => True
  | x :: l' => Forall (fun y => key x < key y) l' /\ ascending key l'
  end.

Definition page_url (category_url : string) (i : nat) : string :=
  if i =? 1 then category_url
  else (Py.rstrip ".html" category_url ++ "/" ++ Py.str_of_nat i ++ ".html")
         %string.

Definition urls (category_url : string) (max_pages : nat) : list future :=
  map (fun i => (i, page_url category_url i)) (seq 1 max_pages).

Definition record_keys : list string :=
  ["category"; "title"; "year"; "quality"; "language"; "file_size";
   "download_url"; "full_title"].

Section Scraper.

(** [BeautifulSoup(html, 'html.parser').find_all('div', class_='L',
    align='left')], each [div] given by its [div.find('a', href=True)]. *)
Variable find_all_L : string -> list (option anchor).

(** [urllib.parse.urljoin]. *)
Variable urljoin : string -> string -> string.

Definition movie_record (category_name : string) (a : anchor) : dict :=
  let title := get_text a in
  let movie_url := urljoin BASE_URL (href a) in
  let info := extract_movie_info title in
  [("category", VStr category_name);
   ("title", getitem "title" info);
   ("year", getitem "year" info);
   ("quality", getitem "quality" info);
   ("language", getitem "language" info);
   ("file_size", getitem "file_size" info);
   ("download_url", VStr movie_url);
   ("full_title", VStr title)].

(** The [for div in soup.find_all(...)] loop. *)
Fixpoint page_movies_loop (category_name : string)
  (divs : list (option anchor)) : list dict :=
  match divs with
  | [] => []
  | None :: more => page_movies_loop category_name more
  | Some a :: more =>
      if String.eqb (href a) "movie/.html"
      then page_movies_loop category_name more
      else movie_record category_name a
           :: page_movies_loop category_name more
  end.

Definition page_movies (category_name html : string) : list dict :=
  page_movies_loop category_name (find_all_L html).

(** [future.result()] of the future submitted for a page. *)
Definition future_result (net : nat -> session) (f : future)
  : (string * option string) * list event :=
  fetch_page (net (fst f)) (snd f).

(** The [for future in as_completed(futures)] loop; [if not html:
    continue] passes over [None] and over the empty string. *)
Fixpoint collect (net : nat -> session) (category_name : string)
  (arrived : list future) : list (nat * list dict) :=
  match arrived with
  | [] => []
  | f :: later =>
      let page_num := fst f in
      let html := snd (fst (future_result net f)) in
      match html with
      | Some (String c t) =>
          (page_num, page_movies category_name (String c t))
          :: collect net category_name later
      | _ => collect net category_name later
      end
  end.

Definition fetch_log (net : nat -> session) (arrived : list future)
  : list event :=
  flat_map (fun f => snd (future_result net f)) arrived.

(** The size of the pool ([workers]) bounds how many fetches run at a
    time; that restricts the completion orders and nothing else, so the
    order is the argument. The log lines of the workers are taken in
    completion order. *)
Definition scrape_category_page (as_completed : scheduler)
  (net : nat -> session) (category_url category_name : string)
  (max_pages : nat) : list dict * list event :=
  let futures := urls category_url max_pages in
  let arrived := as_completed futures in
  let page_results := collect net category_name arrived in
  let page_results := sort_by_key fst page_results in
  (flat_map snd page_results, fetch_log net arrived).

(** What page [i] of a category holds once fetched and parsed. *)
Definition page_records (net : nat -> session)
  (category_url category_name : string) (i : nat) : list dict :=
  match snd (fst (fetch_page (net i) (page_url category_url i))) with
  | Some (String c t) => page_movies category_name (String c t)
  | _ => []
  end.

(** ** Excel export *)

(** The columns pandas gives a frame built from a list of records: the
    keys in the order in which they first occur. *)
Fixpoint add_columns (cols ks : list string) : list string :=
  match ks with
  | [] => cols
  | k :: ks' =>
      add_columns
        (if existsb (String.eqb k) cols then cols else cols ++ [k]) ks'
  end.

Definition df_columns (data : list dict) : list string :=
  fold_left (fun cols d => add_columns cols (keys d)) data [].

Definition columns : list string :=
  ["category"; "title"; "year"; "quality"; "language"; "genre";
   "file_size"; "release_date"; "stars"; "download_url"; "poster_url";
   "full_title"].

Record sheet : Type := mk_sheet {
  header : list string;
  rows : list (list value)
}.

(** [df = df[[col for col in columns if col in df.columns]]]: the
    frame that is written; a record without a column leaves the cell
    empty. *)
Definition select_columns (data : list dict) : sheet :=
  let df_cols := df_columns data in
  let cols := filter (fun col => existsb (String.eqb col) df_cols) columns in
  mk_sheet cols (map (fun d => map (fun col => getitem col d) cols) data).

(** The characters openpyxl refuses in a cell, its
    [ILLEGAL_CHARACTERS_RE]: [[\000-\010]|[\013-\014]|[\016-\037]]. *)
Definition illegal_char (c : ascii) : bool :=
  let n := nat_of_ascii c in
  (n <=? 8) || (n =? 11) || (n =? 12) || ((14 <=? n) && (n <=? 31)).

Fixpoint has_char (p : ascii -> bool) (s : string) : bool :=
  match s with
  | EmptyString => false
  | String c s' => p c || has_char p s'
  end.

(** [value[:32767]]: what a cell keeps of a string. *)
Definition cell_text (s : string) : string :=
  String.substring 0 (N.to_nat 32767) s.

(** openpyxl's [check_string]: the string is cut to 32767 characters,
    and [IllegalCharacterError] is raised ([None]) when what is left
    holds a character it refuses. *)
Definition check_string (s : string) : option string :=
  if has_char illegal_char (cell_text s) then None else Some (cell_text s).

Definition write_cell (v : value) : option value :=
  match v with
  | VNone => Some VNone
  | VStr s => option_map VStr (check_string s)
  end.

(** All of a list goes through, or the first failure stops it. *)
Fixpoint all_some {A B : Type} (f : A -> option B) (l : list A)
  : option (list B) :=
  match l with
  | [] => Some []
  | x :: l' =>
      match f x with
      | None => None
      | Some y =>
          match all_some f l' with
          | None => None
          | Some ys => Some (y :: ys)
          end
      end
  end.

Definition write_row (row : list value) : option (list value) :=
  all_some write_cell row.

(** pandas refuses a frame of more than [2**20] rows. *)
Definition max_rows : N := 1048576.

Inductive excel_error : Type :=
| SheetTooLarge
| IllegalCharacterError.

Inductive save_result : Type :=
| Saved (written : sheet)
| Raised (e : excel_error).

(** [save_to_excel]: the frame is selected and written by
    [df.to_excel] through openpyxl. The column names written in the
    header are names of [columns]; the styling of the sheet changes no
    cell. The file system is taken to accept the file. *)
Definition save_to_excel (data : list dict) : save_result :=
  let df := select_columns data in
  if (max_rows <? N.of_nat (length (rows df)))%N
  then Raised SheetTooLarge
  else
    match all_some write_row (rows df) with
    | Some written => Saved (mk_sheet (header df) written)
    | None => Raised IllegalCharacterError
    end.

(** ** Main *)

Record category : Type := mk_category {
  name : string;
  url : string
}.

Definition CATEGORIES : list category :=
  [mk_category "Bollywood Movies"
     "https://skymovieshd.mba/category/Bollywood-Movies.html";
   mk_category "South Indian Hindi Dubbed Movies"
     "https://skymovieshd.mba/category/South-Indian-Hindi-Dubbed-Movies.html";
   mk_category "Hollywood English Movies"
     "https://skymovieshd.mba/category/Hollywood-English-Movies.html";
   mk_category "Hollywood Hindi Dubbed Movies"
     "https://skymovieshd.mba/category/Hollywood-Hindi-Dubbed-Movies.html";
   mk_category "WWE TV Shows"
     "https://skymovieshd.mba/category/WWE-TV-Shows.html";
   mk_category "TV Serial Episodes"
     "https://skymovieshd.mba/category/TV-Serial-Episodes.html";
   mk_category "Hot Short Film"
     "https://skymovieshd.mba/category/Hot-Short-Film.html";
   mk_category "All Web Series"
     "https://skymovieshd.mba/category/All-Web-Series.html"].

(** What is not decided by the program while one category is scraped:
    the completion order of its futures and the answers of the site. *)
Record world : Type := mk_world {
  as_completed : scheduler;
  net : nat -> session
}.

(** The [for idx, category in enumerate(CATEGORIES, 1)] loop of [main],
    from the values [all_movies] and the log have when it is entered. *)
Fixpoint main_loop (worlds : category -> world) (todo : list category)
  (all_movies : list dict) (log : list event) : list dict * list event :=
  match todo with
  | [] => (all_movies, log)
  | c :: more =>
      let w := worlds c in
      let ml :=
        scrape_category_page (as_completed w) (net w) (url c) (name c) 20 in
      main_loop worlds more
        (all_movies ++ fst ml)
        (log ++ snd ml ++ [EvSleep REQUEST_DELAY])
  end.

(** [main]: what saving came to, if anything was to be saved
    ([if all_movies]), and the log. An exception of [save_to_excel]
    leaves [main]; the handler around [main] reports it. *)
Definition main (worlds : category -> world)
  : option save_result * list event :=
  let ml := main_loop worlds CATEGORIES [] [] in
  (match fst ml with
   | [] => None
   | _ :: _ => Some (save_to_excel (fst ml))
   end,
   snd ml).

(** ** Movie detail pages *)

(** [\s*]: the longest run first and the empty run last, which is the
    order of [(?:\s+)?]. *)
Definition spaces_opt_re : Re.regex := Re.Opt (Re.Plus Py.isspace).

(** [[^,]] *)
Definition not_comma (c : ascii) : bool := negb (Ascii.eqb c ","%char).

(** [label\s*:\s*(p+)], the shape of the three patterns of a detail
    page. *)
Definition labelled_re (label : string) (p : ascii -> bool) : Re.regex :=
  Re.Seq (Re.lits label)
    (Re.Seq spaces_opt_re
       (Re.Seq (Re.Lit ":"%char)
          (Re.Seq spaces_opt_re (Re.Group (Re.Plus p))))).

(** [Genre\s*:\s*([^,]+)] *)
Definition genre_re : Re.regex := labelled_re "Genre" not_comma.

(** [Release Date\s*:\s*(.+)] *)
Definition release_date_re : Re.regex :=
  labelled_re "Release Date" Re.dot_class.

(** [Stars\s*:\s*(.+)] *)
Definition stars_re : Re.regex := labelled_re "Stars" Re.dot_class.

(** [m.group(1).strip()]; the group of these patterns always takes
    part in a match. *)
Definition stripped_group (a : Re.attempt) : value :=
  match Re.group1 a with
  | Some g => VStr (Py.strip g)
  | None => VNone
  end.

(** [if m: details[k] = m.group(1).strip()] *)
Definition set_stripped (k : string) (m : option Re.attempt)
  (details : dict) : dict :=
  match m with
  | Some a => dict_set k (stripped_group a) details
  | None => details
  end.

(** The [for div in let_divs] loop, on the texts of the [div]s. *)
Fixpoint let_divs_loop (texts : list string) (details : dict) : dict :=
  match texts with
  | [] => details
  | text :: more =>
      let_divs_loop more
        (if Py.contains "Release Date" text
         then set_stripped "release_date"
                (Re.search false release_date_re text) details
         else if Py.contains "Stars" text
         then set_stripped "stars" (Re.search false stars_re text) details
         else details)
  end.

Section Details.

(** [soup.find('div', class_='L')] given by its [get_text()], [None]
    when the page has no such [div]. *)
Variable find_L_text : string -> option string.

(** [soup.find_all('div', class_='Let')], each [div] given by its
    [get_text(strip=True)]. *)
Variable find_all_Let_text : string -> list string.

Definition scrape_movie_detail_page (s : session) (movie_url : string)
  : dict * list event :=
  let fetched := get_page_content s movie_url 3 in
  match fst fetched with
  | Some (String c t) =>
      let content := String c t in
      let details :=
        match find_L_text content with
        | Some genre_text =>
            set_stripped "genre" (Re.search false genre_re genre_text) []
        | None => []
        end in
      (let_divs_loop (find_all_Let_text content) details, snd fetched)
  | _ => ([], snd fetched)
  end.

End Details.

(** ** Notions used in the statements *)

(** Every character of [s] satisfies [p]. *)
Definition all_chars (p : ascii -> bool) (s : string) : Prop :=
  Forall (fun c => p c = true) (list_ascii_of_string s).

(** [w] occurs in [s], letter for letter. *)
Definition substring_of (w s : string) : Prop :=
  exists before after, s = (before ++ w ++ after)%string.

(** The vocabulary of [quality_re]. *)
Definition qualities : list string :=
  ["720p"; "1080p"; "480p"; "4K"; "2160p"].

(** A whitespace character of [s] is a blank, and the character after
    it, if any, is not whitespace. *)
Fixpoint blanks_apart (s : string) : Prop :=
  match s with
  | EmptyString => True
  | String c s' =>
      (Py.isspace c = true ->
       c = " "%char
       /\ match s' with
          | EmptyString => True
          | String d _ => Py.isspace d = false
          end)
      /\ blanks_apart s'
  end.

(** Whitespace of [s] is single blanks between other characters:
    [s] neither starts nor ends with whitespace, and a whitespace
    character is a blank followed by a character that is not
    whitespace. *)
Fixpoint single_spaced_from (s : string) : Prop :=
  match s with
  | EmptyString => True
  | String c s' =>
      (Py.isspace c = true ->
       c = " "%char
       /\ match s' with
          | EmptyString => False
          | String d _ => Py.isspace d = false
          end)
      /\ single_spaced_from s'
  end.

Definition single_spaced (s : string) : Prop :=
  match s with
  | EmptyString => True
  | String c _ => Py.isspace c = false /\ single_spaced_from s
  end.

(** Some record of [data] has the key [col]. *)
Definition has_column (col : string) (data : list dict) : bool :=
  existsb (fun d => existsb (String.eqb col) (keys d)) data.

(** The URL of a category without its [.html]. *)
Definition url_stem (u : string) : string :=
  String.substring 0 (String.length u - 5) u.

(** A site that answers every page with an empty body, and a parser
    that finds no listing. *)
Definition blank_net (i : nat) : session := fun _ _ => GetOk "".

Definition no_listing (html : string) : list (option anchor) := [].


(** A sample detail page. *)
Definition sample_L_text (content : string) : option string :=
  Some "Genre : Action, Drama"%string.

Definition sample_Let_text (content : string) : list string :=
  ["Release Date:12 May 2020"; "Stars:A, B"; "Release Date : 2021 Stars"].

(** ** Notions of the description *)

(** [lang] occurs in [title_text] as a substring, letter case apart. *)
Definition occurs_in (lang title_text : string) : Prop :=
  exists before after,
    Py.lower title_text = (before ++ Py.lower lang ++ after)%string.

(** [lang] is the first entry of [langs] that occurs in [title_text]. *)
Definition first_occurring (langs : list string) (lang title_text : string)
  : Prop :=
  exists earlier later,
    langs = earlier ++ lang :: later
    /\ occurs_in lang title_text
    /\ forall l, In l earlier -> ~ occurs_in l title_text.

(** A fetch that is tried up to [R] times, waits [d], [2d], ... between
    successive attempts, and gives the page up only when all [R]
    attempts have failed. *)
Definition retries_with_linear_delay (R d : nat)
  (fetch : session -> string -> option string * list event) : Prop :=
  forall (s : session) (url : string),
    let attempts := length (filter is_get (snd (fetch s url))) in
    attempts <= R
    /\ sleeps (snd (fetch s url))
       = map (fun k => d * k) (seq 1 (attempts - 1))
    /\ (fst (fetch s url) = None
        <-> forall k, k < R -> exists e, s k url = GetErr e).

(** The fetch of a listing page: the HTML and the log of [fetch_page]. *)
Definition page_fetch (s : session) (url : string)
  : option string * list event :=
  (snd (fst (fetch_page s url)), snd (fetch_page s url)).

(** A listing [div] that gives a record: it has an anchor with an
    [href], and the [href] is not the placeholder. *)
Definition usable (div : option anchor) : bool :=
  match div with
  | Some a => negb (String.eqb (href a) "movie/.html")
  | None => false
  end.


(** ** A small site, on which the statements are exercised *)

Definition sample_find_all (html : string) : list (option anchor) :=
  if String.eqb html "<p>nothing</p>"
  then [None; Some (mk_anchor "movie/.html" "")]
  else [Some (mk_anchor "movie/1.html" html); None;
        Some (mk_anchor "movie/.html" "placeholder")].

Definition sample_urljoin (base h : string) : string :=
  (base ++ "/" ++ h)%string.

(** Page 2 times out, page 3 has no listing, the others list a film. *)
Definition sample_net (i : nat) : session :=
  fun _ _ =>
    if i =? 2 then GetErr "timeout"
    else if i =? 3 then GetOk "<p>nothing</p>"
    else GetOk ("Film " ++ Py.str_of_nat i ++ " (2020) 720p")%string.

(** A site that is down. *)
Definition down_net (i : nat) : session := fun _ _ => GetErr "refused".

(** A request that fails once and would then succeed. *)
Definition flaky : session :=
  fun n _ => if n =? 0 then GetErr "timeout" else GetOk "<html>".

Definition reversed : scheduler := fun futures => rev futures.
Definition in_order : scheduler := fun futures => futures.

Definition sample_category : category :=
  mk_category "A" "http://s/c/A.html".

Definition other_category : category :=
  mk_category "B" "http://s/c/B.html".

Definition sample_worlds (c : category) : world :=
  if String.eqb (name c) "A" then mk_world reversed down_net
  else mk_world in_order sample_net.

(** ** Facts about strings and records *)

Lemma startswith_spec (p s : string) :
  Py.startswith p s = true <-> exists rest, s = (p ++ rest)%string.
Proof.
  revert s. induction p as [|a p IH]; intros s; simpl.
  - split; [now exists s|reflexivity].
  - destruct s as [|b s].
    + split; [discriminate|intros [rest H]; discriminate].
    + rewrite andb_true_iff, Ascii.eqb_eq, IH. split.
      * intros [-> [rest ->]]. now exists rest.
      * intros [rest H]. injection H as -> ->. split; [|exists rest]; easy.
Qed.

Lemma contains_spec (needle hay : string) :
  Py.contains needle hay = true
  <-> exists before after, hay = (before ++ needle ++ after)%string.
Proof.
  split.
  - induction hay as [|c hay IH]; cbn [Py.contains];
      rewrite orb_true_iff; intros [H|H]; try discriminate.
    + apply startswith_spec in H as [rest ->]. now exists EmptyString, rest.
    + apply startswith_spec in H as [rest ->]. now exists EmptyString, rest.
    + destruct (IH H) as (before & after & ->).
      now exists (String c before), after.
  - intros (before & after & ->).
    induction before as [|c before IH]; simpl.
    + destruct (needle ++ after)%string eqn:E; cbn [Py.contains];
        rewrite orb_true_iff; left; apply startswith_spec;
        exists after; now rewrite E.
    + cbn [Py.contains]. rewrite IH. apply orb_true_r.
Qed.

Lemma contains_occurs (lang title_text : string) :
  Py.contains (Py.lower lang) (Py.lower title_text) = true
  <-> occurs_in lang title_text.
Proof. apply contains_spec. Qed.

Lemma dict_get_set_same (k : string) (v : value) (d : dict) :
  dict_get k (dict_set k v d) = Some v.
Proof.
  induction d as [|[k' v'] d IH]; simpl.
  - now rewrite String.eqb_refl.
  - destruct (String.eqb k k') eqn:E; simpl; now rewrite E.
Qed.

Lemma dict_get_set_other (k k' : string) (v : value) (d : dict) :
  k <> k' -> dict_get k (dict_set k' v d) = dict_get k d.
Proof.
  intros Hk. induction d as [|[k2 v2] d IH]; simpl.
  - apply String.eqb_neq in Hk. now rewrite Hk.
  - destruct (String.eqb k' k2) eqn:E; simpl.
    + apply String.eqb_eq in E. subst k2.
      apply String.eqb_neq in Hk. now rewrite Hk.
    + now rewrite IH.
Qed.

Lemma keys_dict_set (k : string) (v : value) (d : dict) :
  In k (keys d) -> keys (dict_set k v d) = keys d.
Proof.
  induction d as [|[k' v'] d IH]; simpl; [tauto|].
  destruct (String.eqb k k') eqn:E; simpl; [reflexivity|].
  intros [H|H].
  - apply String.eqb_neq in E. congruence.
  - f_equal. now apply IH.
Qed.

Lemma find_first {A : Type} (p : A -> bool) (l : list A) (x : A) :
  find p l = Some x
  <-> exists earlier later,
        l = earlier ++ x :: later /\ p x = true
        /\ forall y, In y earlier -> p y = false.
Proof.
  induction l as [|a l IH]; simpl.
  - split; [discriminate|].
    intros (earlier & later & H & _). now destruct earlier.
  - destruct (p a) eqn:E.
    + split.
      * intros [= <-]. exists [], l. simpl. tauto.
      * intros ([|b earlier] & later & H & Hx & Hy);
          injection H as -> ->; [reflexivity|].
        specialize (Hy b (or_introl eq_refl)). congruence.
    + rewrite IH. split.
      * intros (earlier & later & -> & Hx & Hy).
        exists (a :: earlier), later. simpl.
        repeat split; auto. intros y [<-|H]; auto.
      * intros ([|b earlier] & later & H & Hx & Hy); injection H as -> ->.
        -- congruence.
        -- exists earlier, later. simpl in Hy. auto.
Qed.

Lemma detect_language_keys (langs : list string) (title_text : string)
  (info : dict) :
  In "language" (keys info) ->
  keys (detect_language langs title_text info) = keys info.
Proof.
  intros Hin. induction langs as [|lang langs IH]; simpl; [reflexivity|].
  destruct (Py.contains _ _); [now apply keys_dict_set|exact IH].
Qed.

Lemma detect_language_get (langs : list string) (title_text : string)
  (info : dict) :
  dict_get "language" (detect_language langs title_text info)
  = match find (fun l => Py.contains (Py.lower l) (Py.lower title_text))
            langs with
    | Some lang => Some (VStr lang)
    | None => dict_get "language" info
    end.
Proof.
  induction langs as [|lang langs IH]; simpl; [reflexivity|].
  destruct (Py.contains _ _); [apply dict_get_set_same|exact IH].
Qed.

(** ** Data extraction *)

(** The extraction on titles as the site words them. *)

Example extract_movie_info_release :
  extract_movie_info
    "Pathaan (2023) Hindi 720P HDRip x264 AAC ESubs [1.2 gb] Full Movie"
  = [("title", VStr "Pathaan Hindi"); ("year", VStr "2023");
     ("quality", VStr "720P"); ("language", VStr "Hindi");
     ("file_size", VStr "1.2 gb")].
Proof. vm_compute. reflexivity. Qed.

Example extract_movie_info_dual_audio :
  extract_movie_info
    "KGF (20222) (2022) 4k ORG. Dual  Audio [Hindi+Kannada] WEB-DL"
  = [("title", VStr "KGF (20222) Dual Audio"); ("year", VStr "2022");
     ("quality", VStr "4k"); ("language", VStr "Hindi");
     ("file_size", VNone)].
Proof. vm_compute. reflexivity. Qed.

Example extract_movie_info_open_bracket :
  extract_movie_info "A [x] B [y"
  = [("title", VStr "A B [y"); ("year", VNone); ("quality", VNone);
     ("language", VNone); ("file_size", VNone)].
Proof. vm_compute. reflexivity. Qed.

Example page_url_2 :
  page_url "https://skymovieshd.mba/category/Bollywood-Movies.html" 2
  = "https://skymovieshd.mba/category/Bollywood-Movies/2.html".
Proof. vm_compute. reflexivity. Qed.

Lemma extract_movie_info_shape (title_text : string) :
  exists info,
    keys info = ["title"; "year"; "quality"; "language"; "file_size"]
    /\ dict_get "language" info = Some VNone
    /\ extract_movie_info title_text
       = dict_set "title" (VStr (clean title_text))
           (detect_language languages title_text info).
Proof.
  unfold extract_movie_info.
  generalize (Re.search false year_re title_text) as m1.
  generalize (Re.search true quality_re title_text) as m2.
  generalize (Re.search true size_re title_text) as m3.
  intros m3 m2 m1. eexists. split; [|split; [|reflexivity]].
  - destruct m1, m2, m3; reflexivity.
  - destruct m1, m2, m3; reflexivity.
Qed.

Lemma extract_movie_info_keys (title_text : string) :
  keys (extract_movie_info title_text)
  = ["title"; "year"; "quality"; "language"; "file_size"].
Proof.
  destruct (extract_movie_info_shape title_text) as (info & Hk & _ & ->).
  assert (Hin : In "language" (keys info)) by (rewrite Hk; simpl; tauto).
  rewrite keys_dict_set; rewrite detect_language_keys by assumption;
    [assumption|].
  rewrite Hk. simpl. tauto.
Qed.

Lemma dict_get_in_keys (k : string) (d : dict) :
  In k (keys d) -> exists v, dict_get k d = Some v.
Proof.
  induction d as [|[k' v'] d IH]; simpl; [tauto|].
  destruct (String.eqb_spec k k') as [->|Hk]; [eauto|].
  intros [H|H]; [congruence|auto].
Qed.

(** The reads of [info] in the record of a film find their key. *)
Lemma movie_record_reads (title_text k : string) :
  In k ["title"; "year"; "quality"; "language"; "file_size"] ->
  dict_get k (extract_movie_info title_text)
  = Some (getitem k (extract_movie_info title_text)).
Proof.
  intros Hk. rewrite <- (extract_movie_info_keys title_text) in Hk.
  destruct (dict_get_in_keys _ _ Hk) as [v Hv].
  unfold getitem. now rewrite Hv.
Qed.

(** C9. For every input, [extract_movie_info] returns a dict with
    exactly the keys title, year, quality, language and file_size; its
    language is the first entry of [languages] that occurs in the input
    as a substring, letter case apart, and [None] when no entry
    occurs. *)
Theorem extract_movie_info_language (title_text : string) :
  keys (extract_movie_info title_text)
  = ["title"; "year"; "quality"; "language"; "file_size"]
  /\ languages
     = ["Hindi"; "English"; "Tamil"; "Telugu"; "Bengali"; "Punjabi";
        "Marathi"; "Malayalam"; "Kannada"; "Gujarati"; "Urdu";
        "Dual Audio"]
  /\ (forall lang,
        dict_get "language" (extract_movie_info title_text)
        = Some (VStr lang)
        <-> first_occurring languages lang title_text)
  /\ (dict_get "language" (extract_movie_info title_text) = Some VNone
      <-> forall lang, In lang languages -> ~ occurs_in lang title_text).
Proof.
  split; [apply extract_movie_info_keys|]. split; [reflexivity|].
  destruct (extract_movie_info_shape title_text)
    as (info & _ & Hlang & ->).
  rewrite dict_get_set_other by discriminate.
  rewrite detect_language_get, Hlang.
  set (p := fun l => Py.contains (Py.lower l) (Py.lower title_text)).
  assert (Hp : forall l, p l = false <-> ~ occurs_in l title_text).
  { intros l. unfold p. rewrite <- contains_occurs.
    now destruct (Py.contains _ _). }
  assert (Hq : forall l, p l = true <-> occurs_in l title_text)
    by (intros l; unfold p; apply contains_occurs).
  split.
  - intros lang. unfold first_occurring.
    destruct (find p languages) as [found|] eqn:E.
    + split.
      * intros [= ->]. apply find_first in E.
        destruct E as (earlier & later & Hl & Hx & Hy).
        exists earlier, later. split; [exact Hl|].
        split; [now apply Hq|]. intros l Hl'. now apply Hp, Hy.
      * intros (earlier & later & Hl & Hx & Hy).
        assert (E' : find p languages = Some lang).
        { apply find_first. exists earlier, later.
          split; [exact Hl|]. split; [now apply Hq|].
          intros l Hl'. now apply Hp, Hy. }
        congruence.
    + split; [discriminate|].
      intros (earlier & later & Hl & Hx & _).
      apply Hq in Hx.
      rewrite (find_none _ _ E lang) in Hx; [discriminate|].
      rewrite Hl. apply in_or_app. right. now left.
  - destruct (find p languages) as [found|] eqn:E.
    + split; [discriminate|].
      intros Hnone. apply find_some in E as [Hf Hpf].
      apply Hnone in Hf. apply Hp in Hf. congruence.
    + split; [|reflexivity].
      intros _ lang Hl. apply Hp. exact (find_none _ _ E lang Hl).
Qed.

(** C5, as the code has it. For the title "Movie Name (2023) 1080p
    [1.4GB]", [extract_movie_info] returns the year "2023", the quality
    "1080p", the file size "1.4GB", no language, and the cleaned title
    "Name": the word "Movie" is one of the noise words the cleaning
    removes. The cleaned title holds no year, quality or bracketed
    tag. *)
Theorem extract_movie_info_example :
  extract_movie_info "Movie Name (2023) 1080p [1.4GB]"
  = [("title", VStr "Name"); ("year", VStr "2023");
     ("quality", VStr "1080p"); ("language", VNone);
     ("file_size", VStr "1.4GB")]
  /\ Re.search false year_tag_re "Name" = None
  /\ Re.search true quality_re "Name" = None
  /\ Re.search false bracket_re "Name" = None.
Proof. vm_compute. repeat split. Qed.

(** C5 as stated fails: the cleaned title of that input is not
    "Movie Name". *)
Lemma extract_movie_info_example_title :
  let info := extract_movie_info "Movie Name (2023) 1080p [1.4GB]" in
  ~ (dict_get "year" info = Some (VStr "2023")
     /\ dict_get "quality" info = Some (VStr "1080p")
     /\ dict_get "file_size" info = Some (VStr "1.4GB")
     /\ dict_get "title" info = Some (VStr "Movie Name")).
Proof. vm_compute. intros (_ & _ & _ & H). discriminate H. Qed.

(** ** Fetching with retries *)

Ltac attempt_cases :=
  match goal with
  | |- forall k, k < _ -> _ =>
      let k := fresh "k" in
      let Hk := fresh "Hk" in
      intros k Hk;
      do 3 (destruct k as [|k]; [eauto|]); lia
  | H : forall k, k < _ -> exists e, ?s k ?u = GetErr e,
    E : ?s ?n ?u = GetOk _ |- _ =>
      let e := fresh "e" in
      let He := fresh "He" in
      destruct (H n ltac:(lia)) as [e He]; congruence
  end.

(** C3, as the code has it. [get_page_content] tries a URL up to 3
    times, sleeps [REQUEST_DELAY], then twice [REQUEST_DELAY], between
    successive attempts, and returns [None] exactly when all three
    attempts fail. [fetch_page], which fetches the listing pages,
    issues one request, never sleeps, and gives the page up as soon as
    that request fails. *)
Theorem get_page_content_retries :
  retries_with_linear_delay 3 REQUEST_DELAY
    (fun s url => get_page_content s url 3)
  /\ forall (s : session) (url : string),
       length (filter is_get (snd (page_fetch s url))) = 1
       /\ sleeps (snd (page_fetch s url)) = []
       /\ (fst (page_fetch s url) = None
           <-> exists e, s 0 url = GetErr e).
Proof.
  split.
  - intros s url. unfold get_page_content. cbn [seq].
    cbn [get_page_content_loop].
    destruct (s 0 url) eqn:E0; [|destruct (s 1 url) eqn:E1];
      [| |destruct (s 2 url) eqn:E2]; cbn;
      (split; [lia|]); (split; [reflexivity|]);
      (split; [try discriminate; intros _|intros H; try reflexivity]);
      attempt_cases.
  - intros s url. unfold page_fetch, fetch_page.
    destruct (s 0 url) as [text|e]; cbn.
    + repeat split; try discriminate. intros [e He]. discriminate.
    + repeat split. now exists e.
Qed.

(** C3 as stated fails for the listing pages: a request that fails
    once and would succeed on a second attempt is given up by
    [fetch_page] at once. *)
Lemma page_fetch_gives_up_at_once :
  flaky 1 "http://s/c/A.html" = GetOk "<html>"
  /\ fst (page_fetch flaky "http://s/c/A.html") = None
  /\ ~ exists d, retries_with_linear_delay MAX_RETRIES d page_fetch.
Proof.
  split; [reflexivity|]. split; [reflexivity|].
  intros [d H].
  destruct (H flaky "http://s/c/A.html") as (_ & _ & [Hnone _]).
  destruct (Hnone eq_refl 1 ltac:(unfold MAX_RETRIES; lia)) as [e He].
  discriminate He.
Qed.

(** ** Facts about the sort *)

Section SortFacts.

Context {A : Type} (key : A -> nat).

Lemma insert_by_key_swap (x y : A) (l : list A) :
  key x <> key y ->
  insert_by_key key x (insert_by_key key y l)
  = insert_by_key key y (insert_by_key key x l).
Proof.
  intros Hxy. induction l as [|z l IH]; simpl.
  - destruct (Nat.leb_spec (key x) (key y)),
             (Nat.leb_spec (key y) (key x));
      try reflexivity; lia.
  - destruct (Nat.leb_spec (key y) (key z)) as [Hyz|Hyz],
             (Nat.leb_spec (key x) (key z)) as [Hxz|Hxz]; simpl;
      destruct (Nat.leb_spec (key x) (key y)),
               (Nat.leb_spec (key y) (key x));
      try lia;
      repeat match goal with
        | |- context [?a <=? ?b] =>
            destruct (Nat.leb_spec a b); try lia
        end;
      try reflexivity; now rewrite IH.
Qed.

Lemma insert_by_key_perm (x : A) (l : list A) :
  Permutation (x :: l) (insert_by_key key x l).
Proof.
  induction l as [|y l IH]; simpl; [reflexivity|].
  destruct (key x <=? key y); [reflexivity|].
  rewrite perm_swap. now apply perm_skip.
Qed.

Lemma sort_by_key_perm (l : list A) : Permutation l (sort_by_key key l).
Proof.
  induction l as [|x l IH]; simpl; [constructor|].
  rewrite <- insert_by_key_perm. now apply perm_skip.
Qed.

Lemma ascending_NoDup (l : list A) : ascending key l -> NoDup (map key l).
Proof.
  induction l as [|x l IH]; simpl; intros H; constructor.
  - destruct H as [H _]. rewrite in_map_iff. intros (y & Hy & Hin).
    rewrite Forall_forall in H. specialize (H y Hin). lia.
  - now apply IH.
Qed.

Lemma sort_by_key_ascending (l : list A) :
  ascending key l -> sort_by_key key l = l.
Proof.
  induction l as [|x l IH]; simpl; [reflexivity|].
  intros [Hx Hl]. rewrite (IH Hl).
  destruct l as [|y l]; simpl; [reflexivity|].
  inversion Hx as [|? ? Hxy _]; subst.
  destruct (key x <=? key y) eqn:E; [reflexivity|].
  apply Nat.leb_gt in E. lia.
Qed.

(** With distinct keys, the sorted list does not depend on the order
    in which the elements came. *)
Lemma sort_by_key_order_free (l l' : list A) :
  Permutation l l' -> NoDup (map key l) ->
  sort_by_key key l = sort_by_key key l'.
Proof.
  induction 1 as [|x l l' Hp IH|x y l|l l' l'' Hp1 IH1 Hp2 IH2];
    simpl; intros Hnd.
  - reflexivity.
  - inversion Hnd; subst. now rewrite IH.
  - inversion Hnd as [|? ? Hy Hnd']; subst.
    apply insert_by_key_swap. intros E. apply Hy. simpl. now left.
  - rewrite IH1 by assumption. apply IH2.
    eapply Permutation_NoDup; [|exact Hnd].
    now apply Permutation_map.
Qed.

End SortFacts.

(** ** Facts about the aggregation *)

Lemma collect_In (net : nat -> session) (category_name : string)
  (arrived : list future) (p : nat * list dict) :
  In p (collect net category_name arrived) ->
  exists f c t,
    In f arrived /\ fst p = fst f
    /\ snd (fst (future_result net f)) = Some (String c t)
    /\ snd p = page_movies category_name (String c t).
Proof.
  induction arrived as [|f later IH]; cbn [collect In]; [tauto|].
  destruct (snd (fst (future_result net f))) as [[|c t]|] eqn:E.
  - intros H. destruct (IH H) as (f' & c' & t' & Hin & Hrest).
    exists f', c', t'. tauto.
  - intros [<-|H].
    + exists f, c, t. simpl. tauto.
    + destruct (IH H) as (f' & c' & t' & Hin & Hrest).
      exists f', c', t'. tauto.
  - intros H. destruct (IH H) as (f' & c' & t' & Hin & Hrest).
    exists f', c', t'. tauto.
Qed.

Lemma collect_perm (net : nat -> session) (category_name : string)
  (l l' : list future) :
  Permutation l l' ->
  Permutation (collect net category_name l) (collect net category_name l').
Proof.
  induction 1 as [|f l l' Hp IH|f g l|l l' l'' Hp1 IH1 Hp2 IH2];
    cbn [collect].
  - constructor.
  - destruct (snd (fst (future_result net f))) as [[|c t]|];
      auto using perm_skip.
  - destruct (snd (fst (future_result net f))) as [[|c t]|],
             (snd (fst (future_result net g))) as [[|c' t']|];
      auto using perm_swap.
  - now rewrite IH1.
Qed.

Lemma collect_ascending (net : nat -> session) (category_name : string)
  (l : list future) :
  ascending fst l -> ascending fst (collect net category_name l).
Proof.
  induction l as [|f l IH]; cbn [collect ascending]; [tauto|].
  intros [Hf Hl].
  destruct (snd (fst (future_result net f))) as [[|c t]|]; auto.
  cbn [ascending fst]. split; [|now apply IH].
  rewrite Forall_forall in *. intros p Hp.
  destruct (collect_In _ _ _ _ Hp) as (g & _ & _ & Hin & -> & _).
  now apply Hf.
Qed.

Lemma urls_from_ascending (category_url : string) (n a : nat) :
  ascending fst (map (fun i => (i, page_url category_url i)) (seq a n)).
Proof.
  revert a. induction n as [|n IH]; intros a; simpl; [exact I|].
  split; [|apply IH].
  rewrite Forall_forall. intros f Hf. rewrite in_map_iff in Hf.
  destruct Hf as (i & <- & Hi). rewrite in_seq in Hi. simpl. lia.
Qed.

Lemma collect_urls_flat (net : nat -> session)
  (category_url category_name : string) (pages : list nat) :
  flat_map snd
    (collect net category_name
       (map (fun i => (i, page_url category_url i)) pages))
  = flat_map (page_records net category_url category_name) pages.
Proof.
  induction pages as [|i pages IH]; simpl; [reflexivity|].
  unfold page_records at 1. unfold future_result. simpl.
  destruct (snd (fst (fetch_page (net i) (page_url category_url i))))
    as [[|c t]|]; simpl; now rewrite IH.
Qed.

(** The sorted page results are those of the pages taken in page
    order, whatever the completion order was. *)
Lemma sorted_page_results (as_completed : scheduler) (net : nat -> session)
  (category_url category_name : string) (max_pages : nat) :
  completes_all as_completed ->
  sort_by_key fst
    (collect net category_name (as_completed (urls category_url max_pages)))
  = collect net category_name (urls category_url max_pages).
Proof.
  intros Hc.
  pose proof (collect_ascending net category_name _
                (urls_from_ascending category_url max_pages 1)) as Hasc.
  fold (urls category_url max_pages) in Hasc.
  rewrite <- (sort_by_key_order_free fst
                (collect net category_name (urls category_url max_pages))).
  - now apply sort_by_key_ascending.
  - apply collect_perm, Hc.
  - now apply ascending_NoDup.
Qed.

Lemma scrape_category_page_pages (as_completed : scheduler)
  (net : nat -> session) (category_url category_name : string)
  (max_pages : nat) :
  completes_all as_completed ->
  fst (scrape_category_page as_completed net category_url category_name
         max_pages)
  = flat_map (page_records net category_url category_name)
      (seq 1 max_pages).
Proof.
  intros Hc. unfold scrape_category_page. simpl.
  rewrite sorted_page_results by assumption.
  apply collect_urls_flat.
Qed.

Lemma flat_map_without {B : Type} (f : nat -> list B) (i : nat)
  (l : list nat) :
  f i = [] ->
  flat_map f l = flat_map f (filter (fun j => negb (j =? i)) l).
Proof.
  intros Hi. induction l as [|j l IH]; simpl; [reflexivity|].
  destruct (Nat.eqb_spec j i) as [->|Hj]; simpl.
  - now rewrite Hi.
  - now rewrite IH.
Qed.

Lemma flat_map_all_nil {B C : Type} (f : B -> list C) (l : list B) :
  (forall x, In x l -> f x = []) -> flat_map f l = [].
Proof.
  induction l as [|x l IH]; simpl; intros H; [reflexivity|].
  rewrite (H x (or_introl eq_refl)). apply IH. auto.
Qed.

Lemma page_movies_loop_In (category_name : string)
  (divs : list (option anchor)) (rec : dict) :
  In rec (page_movies_loop category_name divs) ->
  exists a,
    In (Some a) divs /\ href a <> "movie/.html"
    /\ rec = movie_record category_name a.
Proof.
  induction divs as [|[a|] divs IH]; simpl; [tauto| |].
  - destruct (String.eqb_spec (href a) "movie/.html") as [E|E].
    + intros H. destruct (IH H) as (b & Hb & Hrest). exists b. tauto.
    + intros [<-|H].
      * exists a. tauto.
      * destruct (IH H) as (b & Hb & Hrest). exists b. tauto.
  - intros H. destruct (IH H) as (b & Hb & Hrest). exists b. tauto.
Qed.

Lemma page_movies_loop_length (category_name : string)
  (divs : list (option anchor)) :
  length (page_movies_loop category_name divs)
  = length (filter usable divs).
Proof.
  induction divs as [|[a|] divs IH]; simpl; [reflexivity| |exact IH].
  destruct (String.eqb (href a) "movie/.html"); simpl; now rewrite IH.
Qed.

Lemma page_movies_loop_none (category_name : string)
  (divs : list (option anchor)) :
  Forall (fun div => usable div = false) divs ->
  page_movies_loop category_name divs = [].
Proof.
  induction 1 as [|[a|] divs Hd _ IH]; simpl; [reflexivity| |exact IH].
  unfold usable in Hd. apply negb_false_iff in Hd. now rewrite Hd.
Qed.

(** Every record of a scrape, whatever the completion order, is the
    record of a usable anchor. *)
Lemma scrape_category_page_In (as_completed : scheduler)
  (net : nat -> session) (category_url category_name : string)
  (max_pages : nat) (rec : dict) :
  In rec (fst (scrape_category_page as_completed net category_url
                 category_name max_pages)) ->
  exists a, rec = movie_record category_name a.
Proof.
  unfold scrape_category_page. cbn [fst]. rewrite in_flat_map.
  intros (p & Hp & Hrec).
  apply (Permutation_in _ (Permutation_sym (sort_by_key_perm fst _))) in Hp.
  destruct (collect_In _ _ _ _ Hp) as (f & c & t & _ & _ & _ & Hsnd).
  rewrite Hsnd in Hrec.
  destruct (page_movies_loop_In _ _ _ Hrec) as (a & _ & _ & ->).
  now exists a.
Qed.

Lemma main_loop_fst (worlds : category -> world) (todo : list category)
  (all_movies : list dict) (log : list event) :
  fst (main_loop worlds todo all_movies log)
  = all_movies
    ++ flat_map
         (fun c =>
            fst (scrape_category_page (as_completed (worlds c))
                   (net (worlds c)) (url c) (name c) 20))
         todo.
Proof.
  revert all_movies log.
  induction todo as [|c todo IH]; intros all_movies log; simpl.
  - now rewrite app_nil_r.
  - rewrite IH. now rewrite <- app_assoc.
Qed.

Lemma df_columns_record_keys (data : list dict) :
  Forall (fun d => keys d = record_keys) data ->
  df_columns data = match data with [] => [] | _ :: _ => record_keys end.
Proof.
  unfold df_columns. intros H.
  assert (Hfrom : forall l, Forall (fun d => keys d = record_keys) l ->
            fold_left (fun cols d => add_columns cols (keys d)) l
              record_keys = record_keys).
  { induction 1 as [|d l Hd _ IH]; simpl; [reflexivity|].
    now rewrite Hd. }
  destruct H as [|d l Hd Hl]; simpl; [reflexivity|].
  rewrite Hd. exact (Hfrom l Hl).
Qed.

Lemma completes_all_in_order : completes_all in_order.
Proof. intros futures. reflexivity. Qed.

Lemma completes_all_reversed : completes_all reversed.
Proof. intros futures. apply Permutation_rev. Qed.

(** ** Category scraping *)

(** C1. The records [scrape_category_page] returns do not depend on the
    order in which the fetches complete: two runs that get the same
    answers from the site return the same list. *)
Theorem scrape_category_page_order_free (order1 order2 : scheduler)
  (net : nat -> session) (category_url category_name : string)
  (max_pages : nat) :
  completes_all order1 -> completes_all order2 ->
  fst (scrape_category_page order1 net category_url category_name
         max_pages)
  = fst (scrape_category_page order2 net category_url category_name
           max_pages).
Proof.
  intros H1 H2. unfold scrape_category_page. cbn [fst].
  now rewrite !sorted_page_results.
Qed.

(** C2. Once every fetch has settled, [scrape_category_page] returns
    the records of page 1, then those of page 2, and so on to page
    [max_pages], each page's records in the order in which the page
    lists them; the sorted page results have strictly ascending page
    numbers. *)
Theorem scrape_category_page_in_page_order (as_completed : scheduler)
  (net : nat -> session) (category_url category_name : string)
  (max_pages : nat) :
  completes_all as_completed ->
  ascending fst
    (sort_by_key fst
       (collect net category_name
          (as_completed (urls category_url max_pages))))
  /\ fst (scrape_category_page as_completed net category_url
            category_name max_pages)
     = flat_map (page_records net category_url category_name)
         (seq 1 max_pages).
Proof.
  intros Hc. split.
  - rewrite sorted_page_results by assumption.
    apply collect_ascending, urls_from_ascending.
  - now apply scrape_category_page_pages.
Qed.

(** C4. A page whose fetch fails gives no record, and the scrape goes
    on: what is returned is the records of the other pages, in page
    order. *)
Theorem scrape_category_page_failed_page (as_completed : scheduler)
  (net : nat -> session) (category_url category_name : string)
  (max_pages i : nat) (e : string) :
  completes_all as_completed ->
  net i 0 (page_url category_url i) = GetErr e ->
  page_records net category_url category_name i = []
  /\ fst (scrape_category_page as_completed net category_url
            category_name max_pages)
     = flat_map (page_records net category_url category_name)
         (filter (fun j => negb (j =? i)) (seq 1 max_pages)).
Proof.
  intros Hc He.
  assert (Hi : page_records net category_url category_name i = [])
    by (unfold page_records, fetch_page; now rewrite He).
  split; [exact Hi|].
  rewrite scrape_category_page_pages by assumption.
  now apply flat_map_without.
Qed.

(** C6, as the code has it. A page that was fetched and holds no
    usable listing [div] gives no record, and nothing fails: the scrape
    returns the records of the other pages. When the body of the page
    is not empty, the page has an empty record list under its page
    number in the sorted page results; a page whose body is the empty
    string is passed over as a failed fetch is, and has no entry. *)
Theorem scrape_category_page_empty_page (as_completed : scheduler)
  (net : nat -> session) (category_url category_name : string)
  (max_pages i : nat) (html : string) :
  completes_all as_completed ->
  1 <= i <= max_pages ->
  net i 0 (page_url category_url i) = GetOk html ->
  Forall (fun div => usable div = false) (find_all_L html) ->
  let page_results :=
    sort_by_key fst
      (collect net category_name
         (as_completed (urls category_url max_pages))) in
  page_movies category_name html = []
  /\ (html <> EmptyString -> In (i, []) page_results)
  /\ (html = EmptyString -> forall movies, ~ In (i, movies) page_results)
  /\ fst (scrape_category_page as_completed net category_url
            category_name max_pages)
     = flat_map (page_records net category_url category_name)
         (filter (fun j => negb (j =? i)) (seq 1 max_pages)).
Proof.
  intros Hc Hi Hget Hnone page_results. subst page_results.
  assert (Hmovies : page_movies category_name html = [])
    by now apply page_movies_loop_none.
  split; [exact Hmovies|]. split; [|split].
  - intros Hhtml. rewrite sorted_page_results by assumption.
    unfold urls.
    assert (Hin : In i (seq 1 max_pages)) by (apply in_seq; lia).
    induction (seq 1 max_pages) as [|j l IH]; [contradiction|].
    cbn [map collect]. unfold future_result at 1. cbn [fst snd].
    destruct Hin as [->|Hin].
    + unfold fetch_page. rewrite Hget. cbn [fst snd].
      destruct html as [|c t]; [congruence|].
      rewrite Hmovies. now left.
    + destruct (snd (fst (fetch_page (net j) (page_url category_url j))))
        as [[|c t]|]; [|right|]; now apply IH.
  - intros -> movies Hin. rewrite sorted_page_results in Hin by assumption.
    apply collect_In in Hin as (f & c & t & Hf & Hfst & Hres & _).
    unfold urls in Hf. apply in_map_iff in Hf as (j & <- & _).
    cbn [fst] in Hfst. subst j.
    unfold future_result, fetch_page in Hres. cbn [fst snd] in Hres.
    rewrite Hget in Hres. discriminate Hres.
  - rewrite scrape_category_page_pages by assumption.
    apply flat_map_without.
    unfold page_records, fetch_page. rewrite Hget. cbn [fst snd].
    destruct html as [|c t]; [reflexivity|exact Hmovies].
Qed.

(** C8. A category all of whose page fetches fail gives no record;
    every failed fetch is logged as a warning; and [main] goes on to
    the other categories, ending with the records it would have had
    without that category. *)
Theorem unreachable_category (worlds : category -> world) (c : category)
  (before after : list category) :
  completes_all (as_completed (worlds c)) ->
  (forall i, 1 <= i <= 20 ->
     exists e, net (worlds c) i 0 (page_url (url c) i) = GetErr e) ->
  let result :=
    scrape_category_page (as_completed (worlds c)) (net (worlds c))
      (url c) (name c) 20 in
  fst result = []
  /\ (forall i, 1 <= i <= 20 ->
        exists e,
          In (EvWarning (fetch_warning (page_url (url c) i) e))
             (snd result))
  /\ fst (main_loop worlds (before ++ c :: after) [] [])
     = fst (main_loop worlds (before ++ after) [] []).
Proof.
  intros Hc Hdown result.
  assert (Hempty : fst result = []).
  { subst result. rewrite scrape_category_page_pages by assumption.
    apply flat_map_all_nil. intros i Hi.
    apply in_seq in Hi. destruct (Hdown i ltac:(lia)) as [e He].
    unfold page_records, fetch_page. now rewrite He. }
  split; [exact Hempty|]. split.
  - intros i Hi. destruct (Hdown i Hi) as [e He]. exists e.
    subst result. unfold scrape_category_page, fetch_log. cbn [snd].
    apply in_flat_map. exists (i, page_url (url c) i). split.
    + apply (Permutation_in _ (Hc _)). unfold urls.
      apply in_map_iff. exists i. split; [reflexivity|].
      apply in_seq. lia.
    + unfold future_result, fetch_page. cbn [fst snd]. rewrite He.
      right. now left.
  - rewrite !main_loop_fst. cbn [app].
    rewrite !flat_map_app. cbn [flat_map].
    fold result. now rewrite Hempty.
Qed.

(** C10. A listing [div] without an anchor that has an [href], or
    whose [href] is the placeholder, gives no record: a page gives as
    many records as it has usable [div]s. Every record returned comes
    from a usable anchor of a fetched page and carries the category
    name, the anchor's [href] joined to [BASE_URL] as its download URL,
    and the anchor's text, before cleaning, as its full title. *)
Theorem scrape_category_page_records (as_completed : scheduler)
  (net : nat -> session) (category_url category_name : string)
  (max_pages : nat) (rec : dict) :
  completes_all as_completed ->
  In rec (fst (scrape_category_page as_completed net category_url
                 category_name max_pages)) ->
  (forall html,
     length (page_movies category_name html)
     = length (filter usable (find_all_L html)))
  /\ exists i html a,
       1 <= i <= max_pages
       /\ net i 0 (page_url category_url i) = GetOk html
       /\ In (Some a) (find_all_L html)
       /\ href a <> "movie/.html"
       /\ dict_get "category" rec = Some (VStr category_name)
       /\ dict_get "download_url" rec
          = Some (VStr (urljoin BASE_URL (href a)))
       /\ dict_get "full_title" rec = Some (VStr (get_text a)).
Proof.
  intros Hc Hrec.
  split; [intros html; apply page_movies_loop_length|].
  rewrite scrape_category_page_pages in Hrec by assumption.
  apply in_flat_map in Hrec as (i & Hi & Hrec).
  apply in_seq in Hi.
  unfold page_records, fetch_page in Hrec.
  destruct (net i 0 (page_url category_url i)) as [text|e] eqn:E;
    cbn [fst snd] in Hrec; [|contradiction].
  destruct text as [|c t]; [contradiction|].
  destruct (page_movies_loop_In _ _ _ Hrec) as (a & Ha & Hhref & ->).
  exists i, (String c t), a.
  repeat split; try assumption; lia.
Qed.

End Scraper.

(** ** Facts about the matcher *)

Lemma append_assoc (a b c : string) :
  ((a ++ b) ++ c = a ++ b ++ c)%string.
Proof. induction a as [|x a IH]; simpl; [reflexivity|now rewrite IH]. Qed.

Lemma append_nil_r (a : string) : (a ++ "")%string = a.
Proof. induction a as [|x a IH]; simpl; [reflexivity|now rewrite IH]. Qed.

Lemma append_length (a b : string) :
  String.length (a ++ b) = String.length a + String.length b.
Proof. induction a as [|x a IH]; simpl; [reflexivity|now rewrite IH]. Qed.

Lemma append_cancel_l (a b c : string) :
  (a ++ b = a ++ c)%string -> b = c.
Proof.
  induction a as [|x a IH]; simpl; [tauto|].
  intros H. injection H as H. now apply IH.
Qed.

Lemma append_cancel_r (a b c : string) :
  (a ++ c = b ++ c)%string -> a = b.
Proof.
  revert b. induction a as [|x a IH]; intros [|y b] H; simpl in H.
  - reflexivity.
  - apply (f_equal String.length) in H. simpl in H.
    rewrite append_length in H. lia.
  - apply (f_equal String.length) in H. simpl in H.
    rewrite append_length in H. lia.
  - injection H as -> H. f_equal. now apply IH.
Qed.

Lemma all_chars_nil (p : ascii -> bool) : all_chars p "".
Proof. constructor. Qed.

Lemma all_chars_cons (p : ascii -> bool) (c : ascii) (s : string) :
  all_chars p (String c s) <-> p c = true /\ all_chars p s.
Proof.
  unfold all_chars. simpl. split.
  - intros H. inversion H; subst. tauto.
  - intros [H1 H2]. now constructor.
Qed.

Lemma all_chars_app (p : ascii -> bool) (a b : string) :
  all_chars p (a ++ b) <-> all_chars p a /\ all_chars p b.
Proof.
  induction a as [|x a IH]; simpl.
  - split; [intros H; split; [apply all_chars_nil|exact H]|tauto].
  - rewrite !all_chars_cons, IH. tauto.
Qed.

Lemma plus_greedy_spec (p : ascii -> bool) (s m t : string) :
  In (m, t) (Re.plus_greedy p s) ->
  s = (m ++ t)%string /\ all_chars p m /\ m <> "".
Proof.
  revert m t. induction s as [|c s IH]; intros m t; simpl; [tauto|].
  destruct (p c) eqn:E; [|intros []].
  rewrite in_app_iff, in_map_iff. intros [([m' t'] & [= <- <-] & H)|[H|[]]].
  - destruct (IH _ _ H) as (-> & Hall & _). simpl.
    split; [reflexivity|]. split; [|discriminate].
    apply all_chars_cons. tauto.
  - injection H as <- <-. simpl. split; [reflexivity|].
    split; [|discriminate]. apply all_chars_cons.
    split; [exact E|apply all_chars_nil].
Qed.

Lemma star_lazy_spec (p : ascii -> bool) (s m t : string) :
  In (m, t) (Re.star_lazy p s) -> s = (m ++ t)%string /\ all_chars p m.
Proof.
  revert m t. induction s as [|c s IH]; intros m t; simpl.
  - intros [[= <- <-]|[]]. split; [reflexivity|apply all_chars_nil].
  - intros [[= <- <-]|H]; [split; [reflexivity|apply all_chars_nil]|].
    destruct (p c) eqn:E; [|destruct H].
    apply in_map_iff in H as ([m' t'] & [= <- <-] & H).
    destruct (IH _ _ H) as (-> & Hall). simpl.
    split; [reflexivity|]. apply all_chars_cons. tauto.
Qed.

Lemma runs_Seq_inv (ic : bool) (r1 r2 : Re.regex) (s : string)
  (a : Re.attempt) :
  In a (Re.runs ic (Re.Seq r1 r2) s) ->
  exists a1 a2,
    In a1 (Re.runs ic r1 s) /\ In a2 (Re.runs ic r2 (Re.rest a1))
    /\ Re.matched a = (Re.matched a1 ++ Re.matched a2)%string
    /\ Re.group1 a = Re.later_group (Re.group1 a1) (Re.group1 a2)
    /\ Re.rest a = Re.rest a2.
Proof.
  cbn [Re.runs]. rewrite in_flat_map. intros (a1 & H1 & H).
  apply in_map_iff in H as (a2 & <- & H2). exists a1, a2. simpl. tauto.
Qed.

Lemma runs_Lit_inv (ic : bool) (c : ascii) (s : string) (a : Re.attempt) :
  In a (Re.runs ic (Re.Lit c) s) ->
  exists x,
    s = String x (Re.rest a) /\ Re.lit_matches ic c x = true
    /\ Re.matched a = String x "" /\ Re.group1 a = None.
Proof.
  cbn [Re.runs]. destruct s as [|x s]; [intros []|].
  destruct (Re.lit_matches ic c x) eqn:E; [|intros []].
  intros [<-|[]]. exists x. simpl. tauto.
Qed.

Lemma runs_Class_inv (ic : bool) (p : ascii -> bool) (s : string)
  (a : Re.attempt) :
  In a (Re.runs ic (Re.Class p) s) ->
  exists x,
    s = String x (Re.rest a) /\ p x = true
    /\ Re.matched a = String x "" /\ Re.group1 a = None.
Proof.
  cbn [Re.runs]. destruct s as [|x s]; [intros []|].
  destruct (p x) eqn:E; [|intros []].
  intros [<-|[]]. exists x. simpl. tauto.
Qed.

Lemma runs_Plus_inv (ic : bool) (p : ascii -> bool) (s : string)
  (a : Re.attempt) :
  In a (Re.runs ic (Re.Plus p) s) ->
  s = (Re.matched a ++ Re.rest a)%string
  /\ all_chars p (Re.matched a) /\ Re.matched a <> ""
  /\ Re.group1 a = None.
Proof.
  cbn [Re.runs]. rewrite in_map_iff. intros ([m t] & <- & H).
  destruct (plus_greedy_spec _ _ _ _ H) as (-> & Hall & Hne).
  simpl. tauto.
Qed.

Lemma runs_Group_inv (ic : bool) (r : Re.regex) (s : string)
  (a : Re.attempt) :
  In a (Re.runs ic (Re.Group r) s) ->
  exists a',
    In a' (Re.runs ic r s) /\ Re.matched a = Re.matched a'
    /\ Re.group1 a = Some (Re.matched a') /\ Re.rest a = Re.rest a'.
Proof.
  cbn [Re.runs]. rewrite in_map_iff. intros (a' & <- & H).
  exists a'. simpl. tauto.
Qed.

Lemma runs_Opt_inv (ic : bool) (r : Re.regex) (s : string)
  (a : Re.attempt) :
  In a (Re.runs ic (Re.Opt r) s) ->
  In a (Re.runs ic r s)
  \/ (Re.matched a = "" /\ Re.group1 a = None /\ Re.rest a = s).
Proof.
  cbn [Re.runs]. rewrite in_app_iff. intros [H|[<-|[]]]; [now left|].
  right. simpl. tauto.
Qed.

(** What the matcher reports as matched is a prefix of the subject. *)
Lemma runs_prefix (ic : bool) (r : Re.regex) (s : string) (a : Re.attempt) :
  In a (Re.runs ic r s) -> s = (Re.matched a ++ Re.rest a)%string.
Proof.
  revert s a. induction r as [|c|p|r1 IH1 r2 IH2|r1 IH1 r2 IH2|r IH|p|p|r IH];
    intros s a H.
  - destruct H as [<-|[]]. reflexivity.
  - apply runs_Lit_inv in H as (x & Hs & _ & -> & _). exact Hs.
  - apply runs_Class_inv in H as (x & Hs & _ & -> & _). exact Hs.
  - apply runs_Seq_inv in H as (a1 & a2 & H1 & H2 & -> & _ & ->).
    rewrite append_assoc, <- (IH2 _ _ H2). now apply IH1.
  - cbn [Re.runs] in H. apply in_app_iff in H as [H|H]; auto.
  - apply runs_Opt_inv in H as [H|(-> & _ & ->)]; auto.
  - now apply runs_Plus_inv in H.
  - cbn [Re.runs] in H. apply in_map_iff in H as ([m t] & <- & H).
    now apply star_lazy_spec in H.
  - apply runs_Group_inv in H as (a' & H & -> & _ & ->). auto.
Qed.

Lemma runs_lits_inv (ic : bool) (w s : string) (a : Re.attempt) :
  In a (Re.runs ic (Re.lits w) s) ->
  Re.group1 a = None
  /\ String.length (Re.matched a) = String.length w
  /\ (if ic then Py.lower (Re.matched a) = Py.lower w
      else Re.matched a = w).
Proof.
  revert s a. induction w as [|c w IH]; intros s a H.
  - destruct H as [<-|[]]. simpl. now destruct ic.
  - assert (Hc : forall x, Re.lit_matches ic c x = true ->
                   if ic then Py.lower_char x = Py.lower_char c
                   else x = c).
    { intros x. unfold Re.lit_matches. destruct ic; intros E.
      - symmetry. now apply Ascii.eqb_eq.
      - symmetry. now apply Ascii.eqb_eq. }
    destruct w as [|d w].
    + apply runs_Lit_inv in H as (x & _ & Hx & -> & ->).
      apply Hc in Hx. simpl. destruct ic; now rewrite Hx.
    + change (Re.lits (String c (String d w)))
        with (Re.Seq (Re.Lit c) (Re.lits (String d w))) in H.
      apply runs_Seq_inv in H as (a1 & a2 & H1 & H2 & -> & -> & _).
      apply runs_Lit_inv in H1 as (x & _ & Hx & -> & ->).
      apply IH in H2 as (-> & Hlen & Hm). apply Hc in Hx.
      split; [reflexivity|]. split; [simpl in *; now rewrite Hlen|].
      destruct ic; cbn [append Py.lower]; now rewrite Hx, Hm.
Qed.

Lemma search_Some (ic : bool) (r : Re.regex) (s : string) (a : Re.attempt) :
  Re.search ic r s = Some a ->
  exists before,
    s = (before ++ Re.matched a ++ Re.rest a)%string
    /\ In a (Re.runs ic r (Re.matched a ++ Re.rest a)).
Proof.
  induction s as [|c s IH]; cbn [Re.search].
  - destruct (Re.runs ic r "") as [|a' l] eqn:E; [discriminate|].
    intros [= ->]. exists "".
    assert (H : In a (Re.runs ic r "")) by (rewrite E; now left).
    rewrite <- (runs_prefix _ _ _ _ H). now split.
  - destruct (Re.runs ic r (String c s)) as [|a' l] eqn:E.
    + intros H. destruct (IH H) as (before & Hs & Hin).
      exists (String c before). simpl. now rewrite <- Hs.
    + intros [= ->]. exists "".
      assert (H : In a (Re.runs ic r (String c s))) by (rewrite E; now left).
      rewrite <- (runs_prefix _ _ _ _ H). now split.
Qed.

Lemma search_None (ic : bool) (r : Re.regex) (s : string) :
  Re.search ic r s = None <->
  forall before after, s = (before ++ after)%string ->
                       Re.runs ic r after = [].
Proof.
  induction s as [|c s IH]; cbn [Re.search].
  - destruct (Re.runs ic r "") as [|a' l] eqn:E.
    + split; [|reflexivity]. intros _ [|x before] after H; [|discriminate].
      simpl in H. now subst after.
    + split; [discriminate|]. intros H.
      specialize (H "" "" eq_refl). congruence.
  - destruct (Re.runs ic r (String c s)) as [|a' l] eqn:E.
    + rewrite IH. split.
      * intros H [|x before] after Hs; simpl in Hs.
        -- now subst after.
        -- injection Hs as -> ->. now apply (H before).
      * intros H before after ->. apply (H (String c before)). reflexivity.
    + split; [discriminate|]. intros H.
      specialize (H "" (String c s) eq_refl). congruence.
Qed.


Lemma runs_alts_inv (ic : bool) (rs : list Re.regex) (s : string)
  (a : Re.attempt) :
  In a (Re.runs ic (Re.alts rs) s) ->
  exists r, In r rs /\ In a (Re.runs ic r s).
Proof.
  induction rs as [|r rs IH]; [destruct s; intros []|].
  destruct rs as [|r' rs].
  - intros H. exists r. simpl. tauto.
  - change (Re.alts (r :: r' :: rs)) with (Re.Alt r (Re.alts (r' :: rs))).
    cbn [Re.runs]. rewrite in_app_iff. intros [H|H].
    + exists r. simpl. tauto.
    + destruct (IH H) as (r0 & Hin & Hr). exists r0. simpl in *. tauto.
Qed.

Lemma runs_alts_intro (ic : bool) (rs : list Re.regex) (r : Re.regex)
  (s : string) (a : Re.attempt) :
  In r rs -> In a (Re.runs ic r s) -> In a (Re.runs ic (Re.alts rs) s).
Proof.
  induction rs as [|r0 rs IH]; [intros []|].
  destruct rs as [|r' rs].
  - intros [->|[]]. tauto.
  - change (Re.alts (r0 :: r' :: rs)) with (Re.Alt r0 (Re.alts (r' :: rs))).
    cbn [Re.runs]. rewrite in_app_iff. intros [->|H] Ha; [now left|].
    right. now apply IH.
Qed.

Lemma runs_lits_intro (w m after : string) :
  Py.lower m = Py.lower w ->
  In (Re.mk_attempt m None after) (Re.runs true (Re.lits w) (m ++ after)).
Proof.
  revert m. induction w as [|c w IH]; intros [|x m] H; try discriminate.
  - now left.
  - simpl in H. injection H as Hx Hm.
    assert (Hlit : Re.lit_matches true c x = true)
      by (unfold Re.lit_matches; rewrite Hx; apply Ascii.eqb_refl).
    destruct w as [|d w].
    + destruct m; [|discriminate]. cbn [Re.lits Re.runs append].
      rewrite Hlit. now left.
    + change (Re.lits (String c (String d w)))
        with (Re.Seq (Re.Lit c) (Re.lits (String d w))).
      cbn [Re.runs append]. rewrite Hlit. cbn [flat_map Re.rest].
      rewrite app_nil_r. apply in_map_iff.
      exists (Re.mk_attempt m None after). split; [reflexivity|].
      now apply IH.
Qed.

Lemma lower_app_inv (t a b : string) :
  Py.lower t = (a ++ b)%string ->
  exists t1 t2, t = (t1 ++ t2)%string /\ Py.lower t1 = a /\ Py.lower t2 = b.
Proof.
  revert t. induction a as [|x a IH]; intros t H.
  - exists "", t. simpl. tauto.
  - destruct t as [|c t]; [discriminate|]. simpl in H.
    injection H as Hx H. destruct (IH _ H) as (t1 & t2 & -> & <- & <-).
    exists (String c t1), t2. simpl. now rewrite Hx.
Qed.

Lemma lower_length (s : string) :
  String.length (Py.lower s) = String.length s.
Proof. induction s as [|c s IH]; simpl; [reflexivity|now rewrite IH]. Qed.

Lemma bracket_literal (c x : ascii) :
  c = "["%char \/ c = "]"%char ->
  Re.lit_matches true c x = true -> x = c.
Proof.
  intros [->| ->];
    destruct x as [[] [] [] [] [] [] [] []]; vm_compute;
    intros H; try reflexivity; discriminate H.
Qed.

Lemma detect_language_get_other (k : string) (langs : list string)
  (title_text : string) (info : dict) :
  k <> "language"%string ->
  dict_get k (detect_language langs title_text info) = dict_get k info.
Proof.
  intros Hk. induction langs as [|lang langs IH]; simpl; [reflexivity|].
  destruct (Py.contains _ _); [now apply dict_get_set_other|exact IH].
Qed.

(** What [extract_movie_info] leaves in the four fields it reads off
    the patterns. *)
Lemma extract_movie_info_fields (title_text : string) :
  let found ic r :=
    match Re.search ic r title_text with
    | Some a => group_value a
    | None => VNone
    end in
  dict_get "year" (extract_movie_info title_text)
  = Some (found false year_re)
  /\ dict_get "quality" (extract_movie_info title_text)
     = Some (found true quality_re)
  /\ dict_get "file_size" (extract_movie_info title_text)
     = Some (found true size_re)
  /\ dict_get "title" (extract_movie_info title_text)
     = Some (VStr (clean title_text)).
Proof.
  intros found. unfold found, extract_movie_info.
  generalize (Re.search false year_re title_text) as m1.
  generalize (Re.search true quality_re title_text) as m2.
  generalize (Re.search true size_re title_text) as m3.
  intros m3 m2 m1.
  rewrite dict_get_set_same.
  rewrite !dict_get_set_other by discriminate.
  rewrite !detect_language_get_other by discriminate.
  destruct m1, m2, m3; repeat split; reflexivity.
Qed.

Lemma year_re_inv (s : string) (a : Re.attempt) :
  In a (Re.runs false year_re s) ->
  exists y,
    Re.group1 a = Some y /\ Re.matched a = ("(" ++ y ++ ")")%string
    /\ String.length y = 4 /\ all_chars Py.isdecimal y.
Proof.
  unfold year_re, Re.digit. intros H.
  apply runs_Seq_inv in H as (a1 & a2 & H1 & H2 & -> & -> & _).
  apply runs_Lit_inv in H1 as (x & _ & Hx & -> & ->).
  apply Ascii.eqb_eq in Hx. subst x.
  apply runs_Seq_inv in H2 as (a3 & a4 & H3 & H4 & -> & -> & _).
  apply runs_Lit_inv in H4 as (x & _ & Hx & -> & ->).
  apply Ascii.eqb_eq in Hx. subst x.
  apply runs_Group_inv in H3 as (g & Hg & -> & -> & _).
  apply runs_Seq_inv in Hg as (d1 & g1 & Hd1 & Hg & -> & _ & _).
  apply runs_Seq_inv in Hg as (d2 & g2 & Hd2 & Hg & -> & _ & _).
  apply runs_Seq_inv in Hg as (d3 & d4 & Hd3 & Hd4 & -> & _ & _).
  apply runs_Class_inv in Hd1 as (x1 & _ & E1 & -> & _).
  apply runs_Class_inv in Hd2 as (x2 & _ & E2 & -> & _).
  apply runs_Class_inv in Hd3 as (x3 & _ & E3 & -> & _).
  apply runs_Class_inv in Hd4 as (x4 & _ & E4 & -> & _).
  eexists. split; [reflexivity|]. split; [reflexivity|].
  split; [reflexivity|].
  cbn [append]. repeat (apply all_chars_cons; split; [assumption|]).
  apply all_chars_nil.
Qed.

Lemma runs_Seq_intro (ic : bool) (r1 r2 : Re.regex) (s : string)
  (a1 a2 : Re.attempt) :
  In a1 (Re.runs ic r1 s) -> In a2 (Re.runs ic r2 (Re.rest a1)) ->
  In (Re.mk_attempt (Re.matched a1 ++ Re.matched a2)
        (Re.later_group (Re.group1 a1) (Re.group1 a2)) (Re.rest a2))
     (Re.runs ic (Re.Seq r1 r2) s).
Proof.
  intros H1 H2. cbn [Re.runs]. apply in_flat_map. exists a1.
  split; [exact H1|]. apply in_map_iff. now exists a2.
Qed.

Lemma runs_Lit_intro (ic : bool) (c x : ascii) (s : string) :
  Re.lit_matches ic c x = true ->
  In (Re.mk_attempt (String x "") None s) (Re.runs ic (Re.Lit c) (String x s)).
Proof. intros H. cbn [Re.runs]. rewrite H. now left. Qed.

Lemma runs_Class_intro (ic : bool) (p : ascii -> bool) (x : ascii)
  (s : string) :
  p x = true ->
  In (Re.mk_attempt (String x "") None s)
     (Re.runs ic (Re.Class p) (String x s)).
Proof. intros H. cbn [Re.runs]. rewrite H. now left. Qed.

Lemma runs_Group_intro (ic : bool) (r : Re.regex) (s : string)
  (a : Re.attempt) :
  In a (Re.runs ic r s) ->
  In (Re.mk_attempt (Re.matched a) (Some (Re.matched a)) (Re.rest a))
     (Re.runs ic (Re.Group r) s).
Proof. intros H. cbn [Re.runs]. apply in_map_iff. now exists a. Qed.

Lemma year_re_intro (y after : string) :
  String.length y = 4 -> all_chars Py.isdecimal y ->
  Re.runs false year_re ("(" ++ y ++ ")" ++ after) <> [].
Proof.
  intros Hlen Hall.
  destruct y as [|x1 [|x2 [|x3 [|x4 [|x5 y]]]]]; try discriminate Hlen.
  repeat (apply all_chars_cons in Hall as [? Hall]).
  assert (Hin : exists a,
            In a (Re.runs false year_re
                    ("(" ++ String x1 (String x2 (String x3 (String x4 "")))
                     ++ ")" ++ after))).
  { eexists. unfold year_re, Re.digit. cbn [append].
    eapply runs_Seq_intro; [now apply runs_Lit_intro|]. cbn [Re.rest].
    eapply runs_Seq_intro.
    - apply runs_Group_intro.
      eapply runs_Seq_intro; [now apply runs_Class_intro|]. cbn [Re.rest].
      eapply runs_Seq_intro; [now apply runs_Class_intro|]. cbn [Re.rest].
      eapply runs_Seq_intro; [now apply runs_Class_intro|]. cbn [Re.rest].
      now apply runs_Class_intro.
    - cbn [Re.rest]. now apply runs_Lit_intro. }
  destruct Hin as [a Ha]. intros E. rewrite E in Ha. destruct Ha.
Qed.

(** ** More on data extraction *)

(** The year of a record is four decimal digits that stand between
    parentheses in the title, and there is no year exactly when the
    title has no such group. *)
Theorem extract_movie_info_year (title_text : string) :
  (forall y,
     dict_get "year" (extract_movie_info title_text) = Some (VStr y) ->
     String.length y = 4 /\ all_chars Py.isdecimal y
     /\ substring_of ("(" ++ y ++ ")") title_text)
  /\ (dict_get "year" (extract_movie_info title_text) = Some VNone
      <-> ~ exists y,
            String.length y = 4 /\ all_chars Py.isdecimal y
            /\ substring_of ("(" ++ y ++ ")") title_text).
Proof.
  destruct (extract_movie_info_fields title_text) as (-> & _).
  destruct (Re.search false year_re title_text) as [a|] eqn:E.
  - destruct (search_Some _ _ _ _ E) as (before & Hs & Hin).
    destruct (year_re_inv _ _ Hin) as (y0 & Hg & Hm & Hlen & Hall).
    unfold group_value. rewrite Hg.
    assert (Hsub : substring_of ("(" ++ y0 ++ ")") title_text).
    { exists before, (Re.rest a). now rewrite <- Hm. }
    split.
    + intros y [= <-]. tauto.
    + split; [discriminate|]. intros H. exfalso. apply H. now exists y0.
  - split; [discriminate|]. split; [|reflexivity]. intros _.
    intros (y & Hlen & Hall & before & after & Hs).
    rewrite search_None in E. specialize (E _ _ Hs).
    rewrite append_assoc in E. cbn [append] in E.
    revert E. rewrite append_assoc. now apply year_re_intro.
Qed.

Lemma quality_re_inv (s : string) (a : Re.attempt) :
  In a (Re.runs true quality_re s) ->
  Re.group1 a = Some (Re.matched a)
  /\ exists w, In w qualities /\ Py.lower (Re.matched a) = Py.lower w.
Proof.
  unfold quality_re. intros H.
  apply runs_Group_inv in H as (a' & H & -> & -> & _).
  split; [reflexivity|].
  apply runs_alts_inv in H as (r & Hr & H).
  apply in_map_iff in Hr as (w & <- & Hw).
  apply runs_lits_inv in H as (_ & _ & H). now exists w.
Qed.

Lemma quality_re_intro (w m after : string) :
  In w qualities -> Py.lower m = Py.lower w ->
  Re.runs true quality_re (m ++ after) <> [].
Proof.
  intros Hw Hm.
  assert (Hin : In (Re.mk_attempt m (Some m) after)
                  (Re.runs true quality_re (m ++ after))).
  { unfold quality_re.
    apply (runs_Group_intro true _ _ (Re.mk_attempt m None after)).
    apply (runs_alts_intro _ _ (Re.lits w)).
    - apply in_map_iff. now exists w.
    - now apply runs_lits_intro. }
  intros E. rewrite E in Hin. destruct Hin.
Qed.

(** The quality of a record is a piece of the title that is one of
    720p, 1080p, 480p, 4K and 2160p, letter case apart; there is no
    quality exactly when none of the five occurs in the title in any
    letter case. *)
Theorem extract_movie_info_quality (title_text : string) :
  (forall q,
     dict_get "quality" (extract_movie_info title_text) = Some (VStr q) ->
     substring_of q title_text
     /\ exists w, In w qualities /\ Py.lower q = Py.lower w)
  /\ (dict_get "quality" (extract_movie_info title_text) = Some VNone
      <-> forall w, In w qualities -> ~ occurs_in w title_text).
Proof.
  destruct (extract_movie_info_fields title_text) as (_ & -> & _).
  destruct (Re.search true quality_re title_text) as [a|] eqn:E.
  - destruct (search_Some _ _ _ _ E) as (before & Hs & Hin).
    destruct (quality_re_inv _ _ Hin) as (Hg & w & Hw & Hlow).
    unfold group_value. rewrite Hg. split.
    + intros q [= <-]. split; [|now exists w].
      now exists before, (Re.rest a).
    + split; [discriminate|]. intros H. exfalso. apply (H w Hw).
      exists (Py.lower before), (Py.lower (Re.rest a)).
      rewrite Hs, <- Hlow. clear.
      induction before as [|c before IH]; simpl.
      * induction (Re.matched a) as [|c m IH]; simpl; now f_equal.
      * now f_equal.
  - split; [discriminate|]. split; [|reflexivity]. intros _ w Hw.
    intros (before & after & Hlow).
    apply lower_app_inv in Hlow as (t1 & t23 & Ht & _ & Hlow).
    apply lower_app_inv in Hlow as (m & t3 & -> & Hm & _).
    rewrite search_None in E. specialize (E _ _ Ht).
    now apply (quality_re_intro w m t3).
Qed.

Lemma size_re_inv (s : string) (a : Re.attempt) :
  In a (Re.runs true size_re s) ->
  exists num sp unit,
    Re.group1 a = Some (num ++ sp ++ unit)%string
    /\ Re.matched a = ("[" ++ (num ++ sp ++ unit) ++ "]")%string
    /\ num <> "" /\ all_chars size_char num
    /\ (sp = "" \/ exists c, sp = String c "" /\ Py.isspace c = true)
    /\ (Py.lower unit = "gb" \/ Py.lower unit = "mb")%string.
Proof.
  unfold size_re. intros H.
  apply runs_Seq_inv in H as (a1 & a2 & H1 & H2 & -> & -> & _).
  apply runs_Lit_inv in H1 as (x & _ & Hx & -> & ->).
  apply bracket_literal in Hx; [subst x|now left].
  apply runs_Seq_inv in H2 as (a3 & a4 & H3 & H4 & -> & -> & _).
  apply runs_Lit_inv in H4 as (x & _ & Hx & -> & ->).
  apply bracket_literal in Hx; [subst x|now right].
  apply runs_Group_inv in H3 as (g & Hg & -> & -> & _).
  apply runs_Seq_inv in Hg as (n & g1 & Hn & Hg & -> & _ & _).
  apply runs_Plus_inv in Hn as (_ & Hall & Hne & _).
  apply runs_Seq_inv in Hg as (sp & u & Hsp & Hu & -> & _ & _).
  exists (Re.matched n), (Re.matched sp), (Re.matched u).
  split; [reflexivity|]. split; [reflexivity|].
  split; [exact Hne|]. split; [exact Hall|]. split.
  - apply runs_Opt_inv in Hsp as [Hsp|(-> & _)]; [|now left].
    apply runs_Class_inv in Hsp as (c & _ & Hc & -> & _).
    right. now exists c.
  - cbn [Re.runs] in Hu. apply in_app_iff in Hu as [Hu|Hu];
      apply runs_lits_inv in Hu as (_ & _ & Hu); rewrite Hu; tauto.
Qed.

(** The file size of a record stands between square brackets in the
    title: a run of digits and dots, at most one whitespace character,
    and GB or MB in any letter case. *)
Theorem extract_movie_info_file_size (title_text sz : string) :
  dict_get "file_size" (extract_movie_info title_text) = Some (VStr sz) ->
  substring_of ("[" ++ sz ++ "]") title_text
  /\ exists num sp unit,
       sz = (num ++ sp ++ unit)%string
       /\ num <> "" /\ all_chars size_char num
       /\ (sp = "" \/ exists c, sp = String c "" /\ Py.isspace c = true)
       /\ (Py.lower unit = "gb" \/ Py.lower unit = "mb")%string.
Proof.
  destruct (extract_movie_info_fields title_text) as (_ & _ & -> & _).
  destruct (Re.search true size_re title_text) as [a|] eqn:E;
    [|discriminate].
  destruct (search_Some _ _ _ _ E) as (before & Hs & Hin).
  destruct (size_re_inv _ _ Hin)
    as (num & sp & unit & Hg & Hm & Hrest).
  unfold group_value. rewrite Hg. intros [= <-]. split.
  - exists before, (Re.rest a). now rewrite <- Hm.
  - now exists num, sp, unit.
Qed.

Lemma sub_from_unmatched (ic : bool) (r : Re.regex) (repl : string)
  (c : ascii) (s : string) :
  Re.runs ic r (String c s) = [] ->
  Re.sub_from ic r repl (String c s) 0
  = String c (Re.sub_from ic r repl s 0).
Proof. intros H. cbn [Re.sub_from]. now rewrite H. Qed.

Lemma sub_from_matched (ic : bool) (r : Re.regex) (repl : string)
  (c : ascii) (s : string) (a : Re.attempt) (l : list Re.attempt) (n : nat) :
  Re.runs ic r (String c s) = a :: l ->
  String.length (Re.matched a) = S n ->
  Re.sub_from ic r repl (String c s) 0
  = (repl ++ Re.sub_from ic r repl s n)%string.
Proof. intros H Hn. cbn [Re.sub_from]. now rewrite H, Hn. Qed.

Lemma sub_from_skip (ic : bool) (r : Re.regex) (repl m t : string) :
  Re.sub_from ic r repl (m ++ t) (String.length m)
  = Re.sub_from ic r repl t 0.
Proof. induction m as [|c m IH]; simpl; [reflexivity|exact IH]. Qed.

(** The first way [p+] matches is the whole run of [p] the subject
    starts with. *)
Lemma plus_greedy_head (p : ascii -> bool) (c : ascii) (s : string) :
  p c = true ->
  exists m t l,
    Re.plus_greedy p (String c s) = (String c m, t) :: l
    /\ s = (m ++ t)%string
    /\ match t with
       | EmptyString => True
       | String d _ => p d = false
       end.
Proof.
  revert c. induction s as [|d s IH]; intros c Hc.
  - exists "", "", []. simpl. now rewrite Hc.
  - cbn [Re.plus_greedy]. rewrite Hc. destruct (p d) eqn:Hd.
    + destruct (IH d Hd) as (m & t & l & E & -> & Ht).
      cbn [Re.plus_greedy] in E. rewrite Hd in E. rewrite E.
      exists (String d m), t. eexists. cbn [map app fst snd].
      split; [reflexivity|]. now split.
    + exists "", (String d s), []. now split.
Qed.

Lemma sub_spaces_blanks_apart (s : string) :
  blanks_apart (Re.sub false spaces_re " " s).
Proof.
  unfold Re.sub, spaces_re.
  set (out := fun s => Re.sub_from false (Re.Plus Py.isspace) " " s 0).
  assert (H : forall n s, String.length s <= n ->
            blanks_apart (out s)
            /\ match s with
               | EmptyString => out s = ""
               | String c _ =>
                   Py.isspace c = false -> exists o, out s = String c o
               end).
  { clear s. induction n as [|n IH]; intros [|c s] Hn;
      try (simpl in Hn; lia); try (split; reflexivity || exact I).
    simpl in Hn. destruct (Py.isspace c) eqn:Hc.
    - destruct (plus_greedy_head _ _ s Hc) as (m & t & l & E & -> & Ht).
      assert (Hout : out (String c (m ++ t)) = String " " (out t)).
      { unfold out.
        rewrite (sub_from_matched _ _ _ _ _
                   (Re.mk_attempt (String c m) None t)
                   (map (fun mr => Re.mk_attempt (fst mr) None (snd mr)) l)
                   (String.length m)).
        - now rewrite sub_from_skip.
        - cbn [Re.runs]. now rewrite E.
        - reflexivity. }
      rewrite Hout.
      assert (Ht' : String.length t <= n)
        by (rewrite append_length in Hn; lia).
      destruct (IH t Ht') as [Hb Hh].
      split; [|discriminate].
      split; [|exact Hb]. intros _. split; [reflexivity|].
      destruct t as [|d t]; [now rewrite Hh|].
      destruct (Hh Ht) as [o ->]. exact Ht.
    - assert (Hout : out (String c s) = String c (out s)).
      { unfold out. apply sub_from_unmatched.
        cbn [Re.runs Re.plus_greedy]. now rewrite Hc. }
      rewrite Hout. destruct (IH s ltac:(lia)) as [Hb _].
      split; [|intros _; now exists (out s)].
      split; [|exact Hb]. congruence. }
  exact (proj1 (H (String.length s) s (le_n _))).
Qed.

Lemma lstrip_blanks_apart (s : string) :
  blanks_apart s ->
  blanks_apart (Py.lstrip_by Py.isspace s)
  /\ match Py.lstrip_by Py.isspace s with
     | EmptyString => True
     | String c _ => Py.isspace c = false
     end.
Proof.
  induction s as [|c s IH]; simpl; [tauto|].
  intros [Hc Hs]. destruct (Py.isspace c) eqn:E; [now apply IH|].
  split; [|exact E]. split; [|exact Hs]. congruence.
Qed.

Lemma rstrip_head (p : ascii -> bool) (c : ascii) (s : string) :
  Py.rstrip_by p (String c s) = ""
  \/ exists t, Py.rstrip_by p (String c s) = String c t.
Proof.
  cbn [Py.rstrip_by]. destruct (Py.rstrip_by p s).
  - destruct (p c); [now left|right; now exists ""].
  - right. eauto.
Qed.

Lemma rstrip_single_spaced_from (s : string) :
  blanks_apart s -> single_spaced_from (Py.rstrip_by Py.isspace s).
Proof.
  induction s as [|c s IH]; [exact (fun H => H)|].
  intros [Hc Hs]. specialize (IH Hs). cbn [Py.rstrip_by].
  destruct (Py.rstrip_by Py.isspace s) as [|d t] eqn:E.
  - destruct (Py.isspace c) eqn:Ec; [exact I|].
    split; [congruence|exact I].
  - split; [|exact IH]. intros Hsp. destruct (Hc Hsp) as [-> Hnext].
    split; [reflexivity|].
    destruct s as [|d' s']; [discriminate E|].
    destruct (rstrip_head Py.isspace d' s') as [E'|[t' E']];
      rewrite E' in E; [discriminate|]. now injection E as <- _.
Qed.

Lemma strip_single_spaced (s : string) :
  blanks_apart s -> single_spaced (Py.strip s).
Proof.
  intros H. unfold Py.strip.
  destruct (lstrip_blanks_apart s H) as [Hb Hh].
  pose proof (rstrip_single_spaced_from _ Hb) as Hr.
  destruct (Py.lstrip_by Py.isspace s) as [|c v]; [exact I|].
  unfold single_spaced.
  destruct (rstrip_head Py.isspace c v) as [E|[t E]]; rewrite E in *;
    [exact I|]. now split.
Qed.

(** The cleaned title of a record has no whitespace at either end, and
    its only whitespace is single blanks: tabs, line breaks and runs of
    blanks in the listing become one blank. *)
Theorem extract_movie_info_title_spacing (title_text : string) :
  exists title,
    dict_get "title" (extract_movie_info title_text) = Some (VStr title)
    /\ single_spaced title.
Proof.
  destruct (extract_movie_info_fields title_text) as (_ & _ & _ & H).
  exists (clean title_text). split; [exact H|].
  unfold clean. apply strip_single_spaced, sub_spaces_blanks_apart.
Qed.

(** ** More on fetching with retries *)

Lemma get_page_content_loop_fails (s : session) (url : string)
  (retries n a : nat) :
  a + n = retries ->
  (forall k, a <= k < retries -> exists e, s k url = GetErr e) ->
  let r := get_page_content_loop s url retries (seq a n) in
  fst r = None
  /\ length (filter is_get (snd r)) = n
  /\ sleeps (snd r) = map (fun j => REQUEST_DELAY * j) (seq (a + 1) (n - 1))
  /\ (1 <= n -> In (EvError ("Failed to fetch " ++ url)%string) (snd r)).
Proof.
  revert a. induction n as [|n IH]; intros a Hn Hfail; cbn [seq].
  - cbn. repeat split. lia.
  - cbn [get_page_content_loop].
    destruct (Hfail a ltac:(lia)) as [e ->].
    destruct (Nat.ltb_spec a (retries - 1)) as [Hlt|Hge].
    + destruct (IH (S a) ltac:(lia)) as (H1 & H2 & H3 & H4).
      { intros k Hk. apply Hfail. lia. }
      cbn [fst snd filter is_get length sleeps].
      split; [exact H1|]. split; [now rewrite H2|]. split.
      * rewrite H3. destruct n as [|n]; [lia|].
        replace (S (S n) - 1) with (S (S n - 1)) by lia.
        cbn [seq map]. now replace (S a + 1) with (S (a + 1)) by lia.
      * intros _. right. right. right. apply H4. lia.
    + assert (n = 0) by lia. subst n. cbn.
      repeat split. tauto.
Qed.

Lemma get_page_content_loop_succeeds (s : session) (url : string)
  (retries n a k : nat) (content : string) :
  a + n = retries -> a <= k < retries ->
  (forall j, a <= j < k -> exists e, s j url = GetErr e) ->
  s k url = GetOk content ->
  let r := get_page_content_loop s url retries (seq a n) in
  fst r = Some content
  /\ length (filter is_get (snd r)) = k - a + 1
  /\ sleeps (snd r) = map (fun j => REQUEST_DELAY * j) (seq (a + 1) (k - a))
  /\ forall msg, ~ In (EvError msg) (snd r).
Proof.
  revert a. induction n as [|n IH]; intros a Hn Hk Hfail Hok; [lia|].
  cbn [seq get_page_content_loop].
  destruct (Nat.eq_dec k a) as [->|Hne].
  - rewrite Hok. replace (a - a) with 0 by lia. cbn.
    repeat split. intros msg [H|[]]. discriminate H.
  - destruct (Hfail a ltac:(lia)) as [e ->].
    destruct (Nat.ltb_spec a (retries - 1)) as [Hlt|Hge]; [|lia].
    destruct (IH (S a) ltac:(lia) ltac:(lia)) as (H1 & H2 & H3 & H4).
    { intros j Hj. apply Hfail. lia. }
    { exact Hok. }
    cbn [fst snd filter is_get length sleeps].
    split; [exact H1|]. split; [rewrite H2; lia|]. split.
    + rewrite H3. replace (k - a) with (S (k - S a)) by lia.
      cbn [seq map]. now replace (S a + 1) with (S (a + 1)) by lia.
    + intros msg [H|[H|[H|H]]]; try discriminate H. now apply (H4 msg).
Qed.

Lemma list_sum_multiples (d m : nat) :
  2 * list_sum (map (fun j => d * j) (seq 1 m)) = d * m * (m + 1).
Proof.
  induction m as [|m IH]; [cbn; lia|].
  rewrite seq_S, map_app, list_sum_app. cbn [map list_sum].
  rewrite Nat.mul_add_distr_l, IH.
  unfold list_sum. cbn [fold_right]. nia.
Qed.

(** [get_page_content] returns the body of the first attempt that
    succeeds, for any number of retries: when attempt [k] (from 0) is
    the first to succeed, it has made [k + 1] requests, slept
    [REQUEST_DELAY], twice [REQUEST_DELAY], ... after the [k] failures,
    and logged no error. *)
Theorem get_page_content_first_success (s : session) (url : string)
  (retries k : nat) (content : string) :
  k < retries ->
  (forall j, j < k -> exists e, s j url = GetErr e) ->
  s k url = GetOk content ->
  let r := get_page_content s url retries in
  fst r = Some content
  /\ length (filter is_get (snd r)) = k + 1
  /\ sleeps (snd r) = map (fun j => REQUEST_DELAY * j) (seq 1 k)
  /\ forall msg, ~ In (EvError msg) (snd r).
Proof.
  intros Hk Hfail Hok. unfold get_page_content.
  destruct (get_page_content_loop_succeeds s url retries retries 0 k content)
    as (H1 & H2 & H3 & H4); try assumption; try lia.
  - intros j Hj. apply Hfail. lia.
  - rewrite Nat.sub_0_r in H2, H3. cbn [Nat.add] in H3. tauto.
Qed.

(** When every attempt fails, [get_page_content] returns [None] after
    exactly [retries] requests, having slept [REQUEST_DELAY] times
    [retries * (retries - 1) / 2] seconds in all, with no sleep after
    the last attempt; it logs an error unless [retries] is 0, in which
    case it returns [None] without a request. *)
Theorem get_page_content_all_fail (s : session) (url : string)
  (retries : nat) :
  (forall k, k < retries -> exists e, s k url = GetErr e) ->
  let r := get_page_content s url retries in
  fst r = None
  /\ length (filter is_get (snd r)) = retries
  /\ sleeps (snd r)
     = map (fun j => REQUEST_DELAY * j) (seq 1 (retries - 1))
  /\ 2 * list_sum (sleeps (snd r)) = REQUEST_DELAY * (retries - 1) * retries
  /\ (1 <= retries ->
      In (EvError ("Failed to fetch " ++ url)%string) (snd r))
  /\ (retries = 0 -> snd r = []).
Proof.
  intros Hfail. unfold get_page_content.
  destruct (get_page_content_loop_fails s url retries retries 0)
    as (H1 & H2 & H3 & H4); try lia.
  - intros k Hk. apply Hfail. lia.
  - cbn [Nat.add] in H3. cbn zeta.
    split; [exact H1|]. split; [exact H2|]. split; [exact H3|]. split.
    + rewrite H3, list_sum_multiples.
      destruct retries as [|n]; [reflexivity|].
      replace (S n - 1) with n by lia. lia.
    + split; [exact H4|]. now intros ->.
Qed.

(** ** Page URLs *)

Lemma rstrip_by_suffix (p : ascii -> bool) (s : string) :
  exists suffix,
    s = (Py.rstrip_by p s ++ suffix)%string /\ all_chars p suffix.
Proof.
  induction s as [|c s (suffix & Hs & Hall)].
  { exists "". split; [reflexivity|apply all_chars_nil]. }
  cbn [Py.rstrip_by]. destruct (Py.rstrip_by p s) as [|d t] eqn:E.
  - simpl in Hs. subst suffix. destruct (p c) eqn:Hc.
    + exists (String c s). split; [reflexivity|].
      apply all_chars_cons. tauto.
    + exists s. now split.
  - exists suffix. split; [|exact Hall]. simpl. now rewrite Hs at 1.
Qed.

Lemma rstrip_by_last (p : ascii -> bool) (s : string) :
  Py.rstrip_by p s = ""
  \/ exists pre c,
       Py.rstrip_by p s = (pre ++ String c "")%string /\ p c = false.
Proof.
  induction s as [|c s IH]; [now left|].
  cbn [Py.rstrip_by]. destruct (Py.rstrip_by p s) as [|d t] eqn:E.
  - destruct (p c) eqn:Hc; [now left|]. right. now exists "", c.
  - right. destruct IH as [IH|(pre & x & IH & Hx)]; [discriminate|].
    exists (String c pre), x. simpl. now rewrite IH.
Qed.

Lemma rstrip_by_keeps (p : ascii -> bool) (pre : string) (c : ascii)
  (t : string) :
  p c = false -> all_chars p t ->
  Py.rstrip_by p (pre ++ String c t) = (pre ++ String c "")%string.
Proof.
  intros Hc Ht.
  assert (Hempty : Py.rstrip_by p t = "").
  { induction t as [|d t IH]; [reflexivity|].
    apply all_chars_cons in Ht as [Hd Ht].
    cbn [Py.rstrip_by]. now rewrite (IH Ht), Hd. }
  induction pre as [|x pre IH]; cbn [append Py.rstrip_by].
  - now rewrite Hempty, Hc.
  - rewrite IH. now destruct pre.
Qed.

Lemma str_of_nat_inj (n m : nat) :
  Py.str_of_nat n = Py.str_of_nat m -> n = m.
Proof.
  unfold Py.str_of_nat. intros H.
  apply (f_equal NilEmpty.uint_of_string) in H.
  rewrite !NilEmpty.usu in H. injection H as H.
  apply (f_equal Nat.of_uint) in H.
  now rewrite !Unsigned.of_to in H.
Qed.

(** The pages of a category have pairwise distinct URLs, whatever the
    category URL is. *)
Theorem page_url_inj (category_url : string) (i j : nat) :
  page_url category_url i = page_url category_url j -> i = j.
Proof.
  assert (Hfirst : forall k,
            category_url
            <> (Py.rstrip ".html" category_url ++ "/" ++ Py.str_of_nat k
                ++ ".html")%string).
  { intros k H. unfold Py.rstrip in H.
    destruct (rstrip_by_suffix (fun c => Py.mem_char c ".html") category_url)
      as (suffix & Hs & Hall).
    assert (E : suffix = ("/" ++ Py.str_of_nat k ++ ".html")%string).
    { apply (append_cancel_l
               (Py.rstrip_by (fun c => Py.mem_char c ".html") category_url)).
      congruence. }
    rewrite E in Hall. apply all_chars_cons in Hall as [Hslash _].
    discriminate Hslash. }
  unfold page_url.
  destruct (Nat.eqb_spec i 1) as [->|Hi], (Nat.eqb_spec j 1) as [->|Hj].
  - reflexivity.
  - intros H. now apply Hfirst in H.
  - intros H. symmetry in H. now apply Hfirst in H.
  - intros H. apply append_cancel_l in H. cbn [append] in H.
    injection H as H. apply append_cancel_r in H.
    now apply str_of_nat_inj.
Qed.

(** Past page 1, the URL of page [i] is the category URL with [.html]
    replaced by [/i.html] exactly when what precedes [.html] is empty
    or ends in a character other than ".", "h", "t", "m" and "l":
    [rstrip('.html')] removes every trailing character of that set. *)
Theorem page_url_of_stem (stem : string) (i : nat) :
  i <> 1 ->
  page_url (stem ++ ".html") i
  = (stem ++ "/" ++ Py.str_of_nat i ++ ".html")%string
  <-> stem = ""
      \/ exists pre c,
           stem = (pre ++ String c "")%string
           /\ Py.mem_char c ".html" = false.
Proof.
  intros Hi. unfold page_url.
  destruct (Nat.eqb_spec i 1) as [|_]; [contradiction|].
  unfold Py.rstrip. split.
  - intros H. apply append_cancel_r in H.
    destruct (rstrip_by_last (fun c => Py.mem_char c ".html")
                (stem ++ ".html")) as [E|(pre & c & E & Hc)];
      rewrite E in H; [now left|].
    right. now exists pre, c.
  - intros [->|(pre & c & -> & Hc)]; [reflexivity|].
    rewrite append_assoc. cbn [append].
    rewrite (rstrip_by_keeps (fun c => Py.mem_char c ".html"));
      [reflexivity|exact Hc|].
    repeat (apply all_chars_cons; split; [reflexivity|]).
    apply all_chars_nil.
Qed.

(** Of the configured categories, all but "Hot Short Film" have their
    page [i] past the first at the category URL with [.html] replaced
    by [/i.html]; for "Hot Short Film" the trailing "lm" of "Film" is
    removed with the extension, so that its page 2 is asked for under
    ".../Hot-Short-Fi/2.html". *)
Theorem page_url_of_categories (c : category) (i : nat) :
  In c CATEGORIES -> i <> 1 ->
  (page_url (url c) i
   = (url_stem (url c) ++ "/" ++ Py.str_of_nat i ++ ".html")%string
   <-> name c <> "Hot Short Film"%string)
  /\ (name c = "Hot Short Film"%string ->
      page_url (url c) i
      = ("https://skymovieshd.mba/category/Hot-Short-Fi/"
         ++ Py.str_of_nat i ++ ".html")%string).
Proof.
  intros Hc Hi. unfold page_url.
  destruct (Nat.eqb_spec i 1) as [|_]; [contradiction|].
  repeat (destruct Hc as [<-|Hc]); try contradiction; cbn [url name];
    match goal with
    | |- context [Py.rstrip ?x ?u] =>
        let r := eval vm_compute in (Py.rstrip x u) in
        change (Py.rstrip x u) with r
    end;
    match goal with
    | |- context [url_stem ?u] =>
        let r := eval vm_compute in (url_stem u) in
        change (url_stem u) with r
    end;
    (split; [split|]);
    try (intros _; reflexivity); try (intros _; discriminate);
    try (intros H; discriminate H).
  intros H. now contradiction H.
Qed.

(** ** More on the export *)

Lemma add_columns_In (cols ks : list string) (k : string) :
  In k (add_columns cols ks) <-> In k cols \/ In k ks.
Proof.
  revert cols. induction ks as [|x ks IH]; intros cols; simpl; [tauto|].
  rewrite IH. destruct (existsb (String.eqb x) cols) eqn:E.
  - apply existsb_exists in E as (y & Hy & Exy).
    apply String.eqb_eq in Exy. subst y.
    split; [tauto|]. intros [H|[<-|H]]; tauto.
  - rewrite in_app_iff. simpl. tauto.
Qed.

Lemma add_columns_NoDup (cols ks : list string) :
  NoDup cols -> NoDup (add_columns cols ks).
Proof.
  revert cols. induction ks as [|x ks IH]; intros cols H; simpl; [exact H|].
  apply IH. destruct (existsb (String.eqb x) cols) eqn:E; [exact H|].
  apply NoDup_app; [exact H|repeat constructor; intros []|].
  intros y Hy [<-|[]].
  assert (E' : existsb (String.eqb x) cols = true).
  { apply existsb_exists. exists x. split; [exact Hy|apply String.eqb_refl]. }
  congruence.
Qed.

Lemma df_columns_spec (data : list dict) :
  NoDup (df_columns data)
  /\ forall k, In k (df_columns data)
               <-> exists d, In d data /\ In k (keys d).
Proof.
  unfold df_columns.
  assert (H : forall cols,
            NoDup cols ->
            NoDup (fold_left (fun cols d => add_columns cols (keys d))
                     data cols)
            /\ forall k,
                 In k (fold_left (fun cols d => add_columns cols (keys d))
                         data cols)
                 <-> In k cols \/ exists d, In d data /\ In k (keys d)).
  { induction data as [|d data IH]; intros cols Hnd; simpl.
    - split; [exact Hnd|]. intros k. split; [tauto|].
      intros [H|(d & [] & _)]. exact H.
    - destruct (IH (add_columns cols (keys d)) (add_columns_NoDup _ _ Hnd))
        as [H1 H2].
      split; [exact H1|]. intros k. rewrite H2, add_columns_In. split.
      + intros [[H|H]|(d' & Hd' & Hk)]; [tauto| |];
          right; [exists d|exists d']; tauto.
      + intros [H|(d' & [<-|Hd'] & Hk)]; [tauto|tauto|].
        right. exists d'. tauto. }
  destruct (H [] (NoDup_nil _)) as [H1 H2]. split; [exact H1|].
  intros k. rewrite H2. simpl. tauto.
Qed.

Lemma all_some_Some {A B : Type} (f : A -> option B) (l : list A)
  (l' : list B) :
  all_some f l = Some l' -> Forall2 (fun x y => f x = Some y) l l'.
Proof.
  revert l'. induction l as [|x l IH]; intros l'; cbn [all_some].
  - intros [= <-]. constructor.
  - destruct (f x) as [y|] eqn:E; [|discriminate].
    destruct (all_some f l) as [ys|]; [|discriminate].
    intros [= <-]. constructor; [exact E|now apply IH].
Qed.

Lemma all_some_None {A B : Type} (f : A -> option B) (l : list A) :
  all_some f l = None -> exists x, In x l /\ f x = None.
Proof.
  induction l as [|x l IH]; cbn [all_some]; [discriminate|].
  destruct (f x) as [y|] eqn:E.
  - destruct (all_some f l) as [ys|]; [discriminate|].
    intros _. destruct (IH eq_refl) as (x' & Hin & Hx').
    exists x'. split; [now right|exact Hx'].
  - intros _. exists x. split; [now left|exact E].
Qed.

Lemma Forall2_In_l {A B : Type} (R : A -> B -> Prop) (l : list A)
  (l' : list B) (x : A) :
  Forall2 R l l' -> In x l -> exists y, In y l' /\ R x y.
Proof.
  induction 1 as [|a b l l' Hab _ IH]; [intros []|].
  intros [<-|Hin].
  - exists b. split; [now left|exact Hab].
  - destruct (IH Hin) as (y & Hy & Hr). exists y. split; [now right|exact Hr].
Qed.

Lemma Forall2_In_r {A B : Type} (R : A -> B -> Prop) (l : list A)
  (l' : list B) (y : B) :
  Forall2 R l l' -> In y l' -> exists x, In x l /\ R x y.
Proof.
  induction 1 as [|a b l l' Hab _ IH]; [intros []|].
  intros [<-|Hin].
  - exists a. split; [now left|exact Hab].
  - destruct (IH Hin) as (x & Hx & Hr). exists x. split; [now right|exact Hr].
Qed.

Lemma write_cell_None (v : value) :
  write_cell v = None ->
  exists s, v = VStr s /\ has_char illegal_char (cell_text s) = true.
Proof.
  destruct v as [|s]; [discriminate|]. unfold write_cell, check_string.
  destruct (has_char illegal_char (cell_text s)) eqn:E; [|discriminate].
  intros _. now exists s.
Qed.

Lemma write_cell_Some (s : string) (c : value) :
  write_cell (VStr s) = Some c ->
  has_char illegal_char (cell_text s) = false.
Proof.
  unfold write_cell, check_string.
  now destruct (has_char illegal_char (cell_text s)).
Qed.

Lemma getitem_VStr (col : string) (d : dict) (s : string) :
  getitem col d = VStr s <-> dict_get col d = Some (VStr s).
Proof.
  unfold getitem. destruct (dict_get col d) as [v|].
  - split; [now intros ->|now intros [= ->]].
  - split; discriminate.
Qed.

Lemma has_column_spec (col : string) (data : list dict) :
  has_column col data = true <-> exists d, In d data /\ In col (keys d).
Proof.
  unfold has_column. rewrite existsb_exists. split.
  - intros (d & Hd & H). apply existsb_exists in H as (k & Hk & E).
    apply String.eqb_eq in E. subst k. now exists d.
  - intros (d & Hd & Hk). exists d. split; [exact Hd|].
    apply existsb_exists. exists col. split; [exact Hk|apply String.eqb_refl].
Qed.

(** The header of the frame that is written: the names of [columns]
    that some record has as a key, in the order of [columns]. *)
Lemma select_columns_header (data : list dict) :
  header (select_columns data)
  = filter (fun col => has_column col data) columns.
Proof.
  destruct (df_columns_spec data) as [_ Hcols].
  unfold select_columns. cbn [header]. apply filter_ext. intros col.
  apply eq_true_iff_eq. rewrite has_column_spec, <- Hcols, existsb_exists.
  split.
  - intros (x & Hx & E). apply String.eqb_eq in E. now subst x.
  - intros H. exists col. split; [exact H|apply String.eqb_refl].
Qed.

(** What saving comes to, in terms of the frame. *)
Lemma save_to_excel_cases (data : list dict) :
  match save_to_excel data with
  | Saved written =>
      (N.of_nat (length data) <= max_rows)%N
      /\ header written = header (select_columns data)
      /\ length (rows written) = length data
      /\ Forall (fun row => length row = length (header written))
           (rows written)
      /\ forall d col s,
           In d data -> In col (header written) ->
           dict_get col d = Some (VStr s) ->
           has_char illegal_char (cell_text s) = false
  | Raised SheetTooLarge => (max_rows < N.of_nat (length data))%N
  | Raised IllegalCharacterError =>
      (N.of_nat (length data) <= max_rows)%N
      /\ exists d col s,
           In d data /\ In col (header (select_columns data))
           /\ dict_get col d = Some (VStr s)
           /\ has_char illegal_char (cell_text s) = true
  end.
Proof.
  unfold save_to_excel.
  set (cols := header (select_columns data)).
  assert (Hrows : rows (select_columns data)
                  = map (fun d => map (fun col => getitem col d) cols) data)
    by reflexivity.
  rewrite Hrows, length_map.
  destruct (N.ltb_spec max_rows (N.of_nat (length data))) as [Hbig|Hfit];
    [exact Hbig|].
  destruct (all_some write_row _) as [written|] eqn:E.
  - apply all_some_Some in E. cbn [header rows].
    split; [exact Hfit|]. split; [reflexivity|].
    split; [rewrite <- (Forall2_length E); apply length_map|]. split.
    + apply Forall_forall. intros row Hrow.
      destruct (Forall2_In_r _ _ _ _ E Hrow) as (src & Hsrc & Hw).
      apply in_map_iff in Hsrc as (d & <- & _).
      apply all_some_Some, Forall2_length in Hw.
      now rewrite <- Hw, length_map.
    + intros d col s Hd Hcol Hget.
      assert (Hsrc : In (map (fun col => getitem col d) cols)
                       (map (fun d => map (fun col => getitem col d) cols)
                          data))
        by (apply in_map_iff; now exists d).
      destruct (Forall2_In_l _ _ _ _ E Hsrc) as (row & _ & Hw).
      apply all_some_Some in Hw.
      assert (Hcell : In (VStr s) (map (fun col => getitem col d) cols)).
      { apply in_map_iff. exists col. split; [|exact Hcol].
        now apply getitem_VStr. }
      destruct (Forall2_In_l _ _ _ _ Hw Hcell) as (c & _ & Hc).
      now apply write_cell_Some in Hc.
  - split; [exact Hfit|].
    apply all_some_None in E as (row & Hrow & Hw).
    apply in_map_iff in Hrow as (d & <- & Hd).
    apply all_some_None in Hw as (v & Hv & Hw).
    apply in_map_iff in Hv as (col & <- & Hcol).
    apply write_cell_None in Hw as (s & Hs & Hill).
    exists d, col, s. rewrite <- getitem_VStr. tauto.
Qed.

Example save_to_excel_control_character :
  save_to_excel [[("title", VStr (String (ascii_of_nat 1) "Film"))]]
  = Raised IllegalCharacterError
  /\ save_to_excel [[("title", VStr (String (ascii_of_nat 9) "Film"))]]
     = Saved (mk_sheet ["title"%string]
                [[VStr (String (ascii_of_nat 9) "Film")]]).
Proof. split; vm_compute; reflexivity. Qed.



(** For any list of records, saving either writes a sheet or raises.
    It raises for more than [2**20] records, and otherwise when a
    string written to a cell holds, within its first 32767 characters,
    a character that openpyxl refuses. A sheet that is written has one
    column, once, for each name of [columns] that some record has as a
    key and for nothing else, one row per record, and one cell per
    column in every row. *)
Theorem save_to_excel_sheet (data : list dict) :
  match save_to_excel data with
  | Saved written =>
      (N.of_nat (length data) <= max_rows)%N
      /\ (forall d col s,
            In d data -> In col (header written) ->
            dict_get col d = Some (VStr s) ->
            has_char illegal_char (cell_text s) = false)
      /\ NoDup (header written)
      /\ (forall col,
            In col (header written)
            <-> In col columns /\ exists d, In d data /\ In col (keys d))
      /\ length (rows written) = length data
      /\ Forall (fun row => length row = length (header written))
           (rows written)
  | Raised SheetTooLarge => (max_rows < N.of_nat (length data))%N
  | Raised IllegalCharacterError =>
      (N.of_nat (length data) <= max_rows)%N
      /\ exists d col s,
           In d data /\ In col columns /\ In col (keys d)
           /\ dict_get col d = Some (VStr s)
           /\ has_char illegal_char (cell_text s) = true
  end.
Proof.
  pose proof (save_to_excel_cases data) as Hcases.
  assert (Hmem : forall col,
            In col (header (select_columns data))
            <-> In col columns /\ exists d, In d data /\ In col (keys d)).
  { intros col. rewrite select_columns_header, filter_In, has_column_spec.
    tauto. }
  destruct (save_to_excel data) as [written|[|]].
  - destruct Hcases as (Hfit & Hhead & Hlen & Hrows & Hlegal).
    split; [exact Hfit|]. split; [exact Hlegal|]. split.
    + rewrite Hhead, select_columns_header. apply NoDup_filter.
      unfold columns.
      repeat (constructor; [simpl; intuition discriminate|]). constructor.
    + split; [intros col; rewrite Hhead; apply Hmem|]. now split.
  - exact Hcases.
  - destruct Hcases as (Hfit & d & col & s & Hd & Hcol & Hget & Hill).
    split; [exact Hfit|]. exists d, col, s.
    split; [exact Hd|]. split; [now apply Hmem in Hcol|]. split.
    + clear - Hget. induction d as [|[k v] d IH]; [discriminate|].
      simpl in *. destruct (String.eqb_spec col k) as [->|_];
        [now left|right; now apply IH].
    + now split.
Qed.

(** ** Requests of a scrape *)

Lemma fetch_page_trace (s : session) (url : string) :
  filter is_get (snd (fetch_page s url)) = [EvGet url]
  /\ sleeps (snd (fetch_page s url)) = [].
Proof. unfold fetch_page. destruct (s 0 url); now split. Qed.

Lemma sleeps_app (t1 t2 : list event) :
  sleeps (t1 ++ t2) = sleeps t1 ++ sleeps t2.
Proof.
  induction t1 as [|e t1 IH]; [reflexivity|].
  destruct e; simpl; now rewrite IH.
Qed.

Lemma fetch_log_trace (net : nat -> session) (arrived : list future) :
  filter is_get (fetch_log net arrived)
  = map (fun f => EvGet (snd f)) arrived
  /\ sleeps (fetch_log net arrived) = [].
Proof.
  unfold fetch_log. induction arrived as [|f arrived [IH1 IH2]];
    [now split|].
  cbn [flat_map map]. rewrite filter_app, sleeps_app, IH1, IH2.
  unfold future_result.
  destruct (fetch_page_trace (net (fst f)) (snd f)) as [-> ->].
  now split.
Qed.

Section ScrapeFacts.

Variable find_all_L : string -> list (option anchor).
Variable urljoin : string -> string -> string.

(** A scrape asks for every page of the category once, whatever the
    pages answer: one request per page URL, [max_pages] in all, and no
    sleep in between. *)
Theorem scrape_category_page_requests (as_completed : scheduler)
  (net : nat -> session) (category_url category_name : string)
  (max_pages : nat) :
  completes_all as_completed ->
  let log :=
    snd (scrape_category_page find_all_L urljoin as_completed net category_url category_name
           max_pages) in
  Permutation (filter is_get log)
    (map (fun i => EvGet (page_url category_url i)) (seq 1 max_pages))
  /\ length (filter is_get log) = max_pages
  /\ sleeps log = [].
Proof.
  intros Hc log. subst log. unfold scrape_category_page. cbn [snd].
  destruct (fetch_log_trace net (as_completed (urls category_url max_pages)))
    as [-> ->].
  assert (Hp : Permutation
                 (map (fun f : future => EvGet (snd f))
                    (as_completed (urls category_url max_pages)))
                 (map (fun i => EvGet (page_url category_url i))
                    (seq 1 max_pages))).
  { rewrite <- (Hc (urls category_url max_pages)). unfold urls.
    now rewrite map_map. }
  split; [exact Hp|]. split; [|reflexivity].
  etransitivity; [exact (Permutation_length Hp)|].
  now rewrite length_map, length_seq.
Qed.

(** ** More on [main] *)

Lemma main_loop_snd (worlds : category -> world) (todo : list category)
  (all_movies : list dict) (log : list event) :
  snd (main_loop find_all_L urljoin worlds todo all_movies log)
  = log
    ++ flat_map
         (fun c =>
            snd (scrape_category_page find_all_L urljoin (as_completed (worlds c))
                   (net (worlds c)) (url c) (name c) 20)
            ++ [EvSleep REQUEST_DELAY])
         todo.
Proof.
  revert all_movies log.
  induction todo as [|c todo IH]; intros all_movies log; simpl.
  - now rewrite app_nil_r.
  - rewrite IH. now rewrite <- !app_assoc.
Qed.

Lemma map_constant {A B : Type} (f : A -> B) (v : B) (l : list A) :
  (forall x, In x l -> f x = v) -> map f l = repeat v (length l).
Proof.
  induction l as [|x l IH]; intros H; simpl; [reflexivity|].
  rewrite (H x (or_introl eq_refl)), IH; [reflexivity|].
  intros y Hy. apply H. now right.
Qed.

(** [main] saves nothing when no category gave a record. Otherwise it
    saves a sheet unless writing raises: for more than [2**20]
    records, or for a field of a record that holds, within its first
    32767 characters, a character that openpyxl refuses. A sheet that
    is saved has the eight columns category, title, year, quality,
    language, file_size, download_url and full_title, in that order,
    and one row of eight cells per record: the columns genre,
    release_date, stars and poster_url never appear. *)
Theorem main_sheet (worlds : category -> world) :
  let data := fst (main_loop find_all_L urljoin worlds CATEGORIES [] []) in
  match fst (main find_all_L urljoin worlds) with
  | None => data = []
  | Some (Saved written) =>
      data <> []
      /\ (N.of_nat (length data) <= max_rows)%N
      /\ (forall d k s,
            In d data -> dict_get k d = Some (VStr s) ->
            has_char illegal_char (cell_text s) = false)
      /\ header written = record_keys
      /\ length (rows written) = length data
      /\ Forall (fun row => length row = 8) (rows written)
  | Some (Raised SheetTooLarge) => (max_rows < N.of_nat (length data))%N
  | Some (Raised IllegalCharacterError) =>
      (N.of_nat (length data) <= max_rows)%N
      /\ exists d k s,
           In d data /\ In k record_keys
           /\ dict_get k d = Some (VStr s)
           /\ has_char illegal_char (cell_text s) = true
  end.
Proof.
  intros data. unfold main. cbn [fst]. fold data.
  assert (Hkeys : Forall (fun d => keys d = record_keys) data).
  { subst data. rewrite main_loop_fst. cbn [app].
    apply Forall_forall. intros d Hd.
    apply in_flat_map in Hd as (c & _ & Hd).
    apply scrape_category_page_In in Hd as [a ->]. reflexivity. }
  clearbody data. destruct data as [|d0 data]; [reflexivity|].
  assert (Hhead : header (select_columns (d0 :: data)) = record_keys).
  { unfold select_columns. cbn [header].
    now rewrite (df_columns_record_keys _ Hkeys). }
  pose proof (save_to_excel_cases (d0 :: data)) as Hcases.
  destruct (save_to_excel (d0 :: data)) as [written|[|]].
  - destruct Hcases as (Hfit & Hw & Hlen & Hrows & Hlegal).
    rewrite Hhead in Hw.
    split; [discriminate|]. split; [exact Hfit|]. split.
    + intros d k s Hd Hget. apply (Hlegal d k s Hd); [|exact Hget].
      rewrite Hw. rewrite Forall_forall in Hkeys. rewrite <- (Hkeys d Hd).
      clear - Hget. induction d as [|[k' v] d IH]; [discriminate|].
      simpl in *. destruct (String.eqb_spec k k') as [->|_];
        [now left|right; now apply IH].
    + split; [exact Hw|]. split; [exact Hlen|].
      now rewrite Hw in Hrows.
  - exact Hcases.
  - destruct Hcases as (Hfit & d & k & s & Hd & Hk & Hget & Hill).
    rewrite Hhead in Hk. split; [exact Hfit|]. now exists d, k, s.
Qed.

(** A run of [main] in which every fetch completes makes 20 requests
    per category, 160 in all, and sleeps [REQUEST_DELAY] seconds after
    each category and at no other time. *)
Theorem main_requests (worlds : category -> world) :
  (forall c, In c CATEGORIES -> completes_all (as_completed (worlds c))) ->
  length (filter is_get (snd (main find_all_L urljoin worlds))) = 160
  /\ sleeps (snd (main find_all_L urljoin worlds)) = repeat REQUEST_DELAY 8.
Proof.
  intros Hc. unfold main. cbn [snd]. rewrite main_loop_snd. cbn [app].
  assert (H : forall todo,
            (forall c, In c todo ->
                       completes_all (as_completed (worlds c))) ->
            let log :=
              flat_map
                (fun c =>
                   snd (scrape_category_page find_all_L urljoin (as_completed (worlds c))
                          (net (worlds c)) (url c) (name c) 20)
                   ++ [EvSleep REQUEST_DELAY])
                todo in
            length (filter is_get log) = 20 * length todo
            /\ sleeps log = repeat REQUEST_DELAY (length todo)).
  { induction todo as [|c todo IH]; intros Htodo; [now split|].
    destruct IH as [IH1 IH2]; [intros c' Hc'; apply Htodo; now right|].
    destruct (scrape_category_page_requests (as_completed (worlds c))
                (net (worlds c)) (url c) (name c) 20
                (Htodo c (or_introl eq_refl))) as (_ & Hlen & Hsl).
    cbn [flat_map]. cbn zeta in *.
    rewrite !filter_app, !length_app, !sleeps_app, Hlen, Hsl, IH1, IH2.
    cbn. split; [lia|reflexivity]. }
  exact (H CATEGORIES Hc).
Qed.

(** The records [main] gathers are grouped by category, in the order
    of the category list: the category column is the name of the first
    category as many times as that category gave records, then that of
    the second, and so on. *)
Theorem main_loop_grouped (worlds : category -> world)
  (todo : list category) :
  map (dict_get "category") (fst (main_loop find_all_L urljoin worlds todo [] []))
  = flat_map
      (fun c =>
         repeat (Some (VStr (name c)))
           (length
              (fst (scrape_category_page find_all_L urljoin (as_completed (worlds c))
                      (net (worlds c)) (url c) (name c) 20))))
      todo.
Proof.
  rewrite main_loop_fst. cbn [app].
  induction todo as [|c todo IH]; [reflexivity|].
  cbn [flat_map]. rewrite map_app, IH. f_equal.
  apply map_constant. intros d Hd.
  apply scrape_category_page_In in Hd as [a ->]. reflexivity.
Qed.

End ScrapeFacts.

(** ** Movie detail pages *)

Lemma keys_dict_set_In (k x : string) (v : value) (d : dict) :
  In x (keys (dict_set k v d)) <-> x = k \/ In x (keys d).
Proof.
  induction d as [|[k' v'] d IH]; simpl.
  - split; [intros [<-|[]]; now left|intros [->|[]]; now left].
  - destruct (String.eqb_spec k k') as [->|Hk]; simpl.
    + split; [tauto|]. intros [->|H]; tauto.
    + rewrite IH. split; [tauto|]. intros [->|[<-|H]]; tauto.
Qed.

Lemma keys_dict_set_NoDup (k : string) (v : value) (d : dict) :
  NoDup (keys d) -> NoDup (keys (dict_set k v d)).
Proof.
  induction d as [|[k' v'] d IH]; simpl; intros H.
  - repeat constructor. intros [].
  - inversion H as [|? ? Hk' Hd]; subst.
    destruct (String.eqb_spec k k') as [->|Hk]; simpl;
      [now constructor|].
    constructor; [|now apply IH].
    fold (keys (dict_set k v d)). rewrite keys_dict_set_In.
    intros [E|E]; [congruence|contradiction].
Qed.

Lemma labelled_re_inv (label : string) (p : ascii -> bool) (s : string)
  (a : Re.attempt) :
  In a (Re.runs false (labelled_re label p) s) ->
  exists g, Re.group1 a = Some g /\ all_chars p g /\ g <> "".
Proof.
  unfold labelled_re, spaces_opt_re. intros H.
  apply runs_Seq_inv in H as (a1 & r1 & _ & H & _ & -> & _).
  apply runs_Seq_inv in H as (a2 & r2 & _ & H & _ & -> & _).
  apply runs_Seq_inv in H as (a3 & r3 & _ & H & _ & -> & _).
  apply runs_Seq_inv in H as (a4 & a5 & _ & H & _ & -> & _).
  apply runs_Group_inv in H as (g & H & _ & -> & _).
  apply runs_Plus_inv in H as (_ & Hall & Hne & _).
  exists (Re.matched g). cbn [Re.later_group]. tauto.
Qed.

Lemma strip_all_chars (p : ascii -> bool) (s : string) :
  all_chars p s -> all_chars p (Py.strip s).
Proof.
  intros H. unfold Py.strip.
  assert (Hl : all_chars p (Py.lstrip_by Py.isspace s)).
  { induction s as [|c s IH]; [exact H|]. simpl.
    destruct (Py.isspace c); [|exact H].
    apply all_chars_cons in H. now apply IH. }
  destruct (rstrip_by_suffix Py.isspace (Py.lstrip_by Py.isspace s))
    as (suffix & Hs & _).
  rewrite Hs in Hl. now apply all_chars_app in Hl.
Qed.

Lemma set_stripped_keys (k x : string) (m : option Re.attempt)
  (details : dict) :
  In x (keys (set_stripped k m details)) -> x = k \/ In x (keys details).
Proof.
  destruct m as [a|]; simpl; [now rewrite keys_dict_set_In|tauto].
Qed.

Lemma set_stripped_NoDup (k : string) (m : option Re.attempt)
  (details : dict) :
  NoDup (keys details) -> NoDup (keys (set_stripped k m details)).
Proof. destruct m as [a|]; simpl; [apply keys_dict_set_NoDup|tauto]. Qed.

Lemma set_stripped_other (k k' : string) (m : option Re.attempt)
  (details : dict) :
  k <> k' -> dict_get k (set_stripped k' m details) = dict_get k details.
Proof.
  intros Hk. destruct m as [a|]; simpl; [|reflexivity].
  now apply dict_get_set_other.
Qed.

Lemma let_divs_loop_spec (texts : list string) (details : dict) :
  NoDup (keys details) ->
  NoDup (keys (let_divs_loop texts details))
  /\ (forall x, In x (keys (let_divs_loop texts details)) ->
                In x (keys details) \/ x = "release_date"%string
                \/ x = "stars"%string)
  /\ dict_get "genre" (let_divs_loop texts details)
     = dict_get "genre" details.
Proof.
  revert details. induction texts as [|text texts IH]; intros details Hnd;
    cbn [let_divs_loop]; [tauto|].
  destruct (Py.contains "Release Date" text);
    [|destruct (Py.contains "Stars" text)];
    match goal with
    | |- context [let_divs_loop texts ?d] =>
        destruct (IH d) as (H1 & H2 & H3);
        [try apply set_stripped_NoDup; exact Hnd|]
    end;
    (split; [exact H1|]); (split; [|rewrite H3]);
    try (apply set_stripped_other; discriminate); try reflexivity;
    intros x Hx; destruct (H2 x Hx) as [H|H]; try tauto;
    apply set_stripped_keys in H; tauto.
Qed.

Section DetailFacts.

Variable find_L_text : string -> option string.
Variable find_all_Let_text : string -> list string.

(** The details of a film have no other keys than genre, release_date
    and stars, each at most once; all three are columns of the sheet.
    The genre holds no comma: of a list of genres, the first is
    kept. *)
Theorem scrape_movie_detail_page_details (s : session)
  (movie_url : string) :
  let details :=
    fst (scrape_movie_detail_page find_L_text find_all_Let_text s
           movie_url) in
  NoDup (keys details)
  /\ (forall k, In k (keys details) ->
                In k ["genre"; "release_date"; "stars"]%string
                /\ In k columns)
  /\ forall g, dict_get "genre" details = Some (VStr g) ->
               all_chars not_comma g.
Proof.
  intros details. subst details. unfold scrape_movie_detail_page.
  destruct (fst (get_page_content s movie_url 3)) as [[|c t]|];
    cbn [fst]; try (split; [constructor|split; [intros k []|discriminate]]).
  set (details0 := match find_L_text (String c t) with
                   | Some genre_text =>
                       set_stripped "genre"
                         (Re.search false genre_re genre_text) []
                   | None => []
                   end).
  assert (H0 : NoDup (keys details0)
               /\ (forall x, In x (keys details0) -> x = "genre"%string)
               /\ forall g, dict_get "genre" details0 = Some (VStr g) ->
                            all_chars not_comma g).
  { subst details0. destruct (find_L_text (String c t)) as [text|];
      [|split; [constructor|split; [intros x []|discriminate]]].
    split; [apply set_stripped_NoDup; constructor|]. split.
    - intros x Hx. apply set_stripped_keys in Hx as [Hx|[]]. exact Hx.
    - destruct (Re.search false genre_re text) as [a|] eqn:E;
        [|discriminate].
      destruct (search_Some _ _ _ _ E) as (_ & _ & Hin).
      apply labelled_re_inv in Hin as (g0 & Hg & Hall & _).
      cbn [set_stripped dict_set dict_get]. unfold stripped_group.
      rewrite Hg. rewrite String.eqb_refl. intros g [= <-].
      now apply strip_all_chars. }
  destruct H0 as (Hnd & Hk & Hg).
  destruct (let_divs_loop_spec (find_all_Let_text (String c t)) details0 Hnd)
    as (H1 & H2 & H3).
  split; [exact H1|]. split.
  - intros k Hin. destruct (H2 k Hin) as [H|[->| ->]];
      [rewrite (Hk k H)| |]; simpl; tauto.
  - rewrite H3. exact Hg.
Qed.

(** When the three attempts for a detail page fail, the details are
    empty, after three requests. *)
Theorem scrape_movie_detail_page_unreachable (s : session)
  (movie_url : string) :
  (forall k, k < 3 -> exists e, s k movie_url = GetErr e) ->
  let result :=
    scrape_movie_detail_page find_L_text find_all_Let_text s movie_url in
  fst result = []
  /\ length (filter is_get (snd result)) = 3.
Proof.
  intros Hfail result. subst result. unfold scrape_movie_detail_page.
  destruct (get_page_content_all_fail s movie_url 3 Hfail)
    as (H1 & H2 & _).
  rewrite H1. cbn [fst snd]. split; [reflexivity|exact H2].
Qed.

End DetailFacts.


(** ** The statements on the small site *)

Lemma scrape_category_page_order_free_sample :
  completes_all in_order /\ completes_all reversed
  /\ fst (scrape_category_page sample_find_all sample_urljoin in_order
            sample_net "http://s/c/A.html" "A" 4)
     = fst (scrape_category_page sample_find_all sample_urljoin reversed
              sample_net "http://s/c/A.html" "A" 4).
Proof.
  split; [exact completes_all_in_order|].
  split; [exact completes_all_reversed|].
  apply scrape_category_page_order_free;
    [exact completes_all_in_order|exact completes_all_reversed].
Defined.

Lemma scrape_category_page_in_page_order_sample :
  completes_all reversed
  /\ ascending fst
       (sort_by_key fst
          (collect sample_find_all sample_urljoin sample_net "A"
             (reversed (urls "http://s/c/A.html" 4))))
  /\ fst (scrape_category_page sample_find_all sample_urljoin reversed
            sample_net "http://s/c/A.html" "A" 4)
     = flat_map
         (page_records sample_find_all sample_urljoin sample_net
            "http://s/c/A.html" "A")
         (seq 1 4).
Proof.
  split; [exact completes_all_reversed|].
  apply scrape_category_page_in_page_order. exact completes_all_reversed.
Defined.

Lemma scrape_category_page_failed_page_sample :
  sample_net 2 0 (page_url "http://s/c/A.html" 2) = GetErr "timeout"
  /\ page_records sample_find_all sample_urljoin sample_net
       "http://s/c/A.html" "A" 2 = []
  /\ fst (scrape_category_page sample_find_all sample_urljoin reversed
            sample_net "http://s/c/A.html" "A" 4)
     = flat_map
         (page_records sample_find_all sample_urljoin sample_net
            "http://s/c/A.html" "A")
         (filter (fun j => negb (j =? 2)) (seq 1 4)).
Proof.
  split; [reflexivity|].
  apply (scrape_category_page_failed_page sample_find_all sample_urljoin
           reversed sample_net "http://s/c/A.html" "A" 4 2 "timeout");
    [exact completes_all_reversed|reflexivity].
Defined.

Lemma scrape_category_page_empty_page_sample :
  sample_net 3 0 (page_url "http://s/c/A.html" 3) = GetOk "<p>nothing</p>"
  /\ Forall (fun div => usable div = false)
       (sample_find_all "<p>nothing</p>")
  /\ page_movies sample_find_all sample_urljoin "A" "<p>nothing</p>" = []
  /\ In (3, [])
       (sort_by_key fst
          (collect sample_find_all sample_urljoin sample_net "A"
             (reversed (urls "http://s/c/A.html" 4))))
  /\ fst (scrape_category_page sample_find_all sample_urljoin reversed
            sample_net "http://s/c/A.html" "A" 4)
     = flat_map
         (page_records sample_find_all sample_urljoin sample_net
            "http://s/c/A.html" "A")
         (filter (fun j => negb (j =? 3)) (seq 1 4)).
Proof.
  assert (Hnone : Forall (fun div => usable div = false)
                    (sample_find_all "<p>nothing</p>"))
    by (simpl; repeat constructor).
  split; [reflexivity|]. split; [exact Hnone|].
  destruct (scrape_category_page_empty_page sample_find_all sample_urljoin
              reversed sample_net "http://s/c/A.html" "A" 4 3
              "<p>nothing</p>" completes_all_reversed
              ltac:(lia) eq_refl Hnone)
    as (Hmovies & Hentry & _ & Hothers).
  split; [exact Hmovies|]. split; [|exact Hothers].
  apply Hentry. discriminate.
Defined.

(** C6 as stated fails for a page that is fetched with an empty body:
    it holds no listing, and it has no entry in the page results. *)
Lemma empty_body_page_has_no_entry :
  blank_net 1 0 (page_url "http://s/c/A.html" 1) = GetOk ""
  /\ Forall (fun div => usable div = false) (no_listing "")
  /\ sort_by_key fst
       (collect no_listing sample_urljoin blank_net "A"
          (in_order (urls "http://s/c/A.html" 2)))
     = []
  /\ ~ In (1, [])
         (sort_by_key fst
            (collect no_listing sample_urljoin blank_net "A"
               (in_order (urls "http://s/c/A.html" 2)))).
Proof.
  split; [reflexivity|]. split; [constructor|].
  split; [reflexivity|]. intros H. exact H.
Qed.

Lemma unreachable_category_sample :
  let result :=
    scrape_category_page sample_find_all sample_urljoin reversed down_net
      "http://s/c/A.html" "A" 20 in
  fst result = []
  /\ (forall i, 1 <= i <= 20 ->
        exists e,
          In (EvWarning (fetch_warning (page_url "http://s/c/A.html" i) e))
             (snd result))
  /\ fst (main_loop sample_find_all sample_urljoin sample_worlds
            ([other_category] ++ sample_category :: []) [] [])
     = fst (main_loop sample_find_all sample_urljoin sample_worlds
              ([other_category] ++ []) [] []).
Proof.
  apply (unreachable_category sample_find_all sample_urljoin sample_worlds
           sample_category [other_category] []).
  - exact completes_all_reversed.
  - intros i Hi. exists "refused"%string. reflexivity.
Defined.

Lemma scrape_category_page_records_sample :
  let rec :=
    movie_record sample_urljoin "A"
      (mk_anchor "movie/1.html" "Film 4 (2020) 720p") in
  In rec
    (fst (scrape_category_page sample_find_all sample_urljoin reversed
            sample_net "http://s/c/A.html" "A" 4))
  /\ dict_get "download_url" rec
     = Some (VStr "https://skymovieshd.mba/movie/1.html")
  /\ exists i html a,
       1 <= i <= 4
       /\ sample_net i 0 (page_url "http://s/c/A.html" i) = GetOk html
       /\ In (Some a) (sample_find_all html)
       /\ href a <> "movie/.html"%string
       /\ dict_get "category" rec = Some (VStr "A")
       /\ dict_get "download_url" rec
          = Some (VStr (sample_urljoin BASE_URL (href a)))
       /\ dict_get "full_title" rec = Some (VStr (get_text a)).
Proof.
  intros rec.
  assert (Hin : In rec
                  (fst (scrape_category_page sample_find_all sample_urljoin
                          reversed sample_net "http://s/c/A.html" "A" 4)))
    by (vm_compute; right; left; reflexivity).
  split; [exact Hin|]. split; [reflexivity|].
  exact (proj2 (scrape_category_page_records sample_find_all sample_urljoin
                  reversed sample_net "http://s/c/A.html" "A" 4 rec
                  completes_all_reversed Hin)).
Defined.

Lemma extract_movie_info_file_size_sample :
  dict_get "file_size" (extract_movie_info "Movie Name (2023) 1080p [1.4GB]")
  = Some (VStr "1.4GB")
  /\ substring_of ("[" ++ "1.4GB" ++ "]") "Movie Name (2023) 1080p [1.4GB]"
  /\ exists num sp unit,
       "1.4GB"%string = (num ++ sp ++ unit)%string
       /\ num <> ""%string /\ all_chars size_char num
       /\ (sp = ""%string
           \/ exists c, sp = String c "" /\ Py.isspace c = true)
       /\ (Py.lower unit = "gb" \/ Py.lower unit = "mb")%string.
Proof.
  split; [reflexivity|].
  apply (extract_movie_info_file_size "Movie Name (2023) 1080p [1.4GB]"
           "1.4GB").
  reflexivity.
Defined.

Lemma get_page_content_first_success_sample :
  let r := get_page_content flaky "http://s/m/1.html" 3 in
  fst r = Some "<html>"%string
  /\ length (filter is_get (snd r)) = 1 + 1
  /\ sleeps (snd r) = map (fun j => REQUEST_DELAY * j) (seq 1 1)
  /\ forall msg, ~ In (EvError msg) (snd r).
Proof.
  apply (get_page_content_first_success flaky "http://s/m/1.html" 3 1
           "<html>").
  - lia.
  - intros j Hj. assert (j = 0) by lia. subst j.
    exists "timeout"%string. reflexivity.
  - reflexivity.
Defined.

Lemma get_page_content_all_fail_sample :
  let r := get_page_content (down_net 0) "http://s/m/1.html" 3 in
  fst r = None
  /\ length (filter is_get (snd r)) = 3
  /\ sleeps (snd r) = map (fun j => REQUEST_DELAY * j) (seq 1 (3 - 1))
  /\ 2 * list_sum (sleeps (snd r)) = REQUEST_DELAY * (3 - 1) * 3
  /\ (1 <= 3 ->
      In (EvError ("Failed to fetch " ++ "http://s/m/1.html")%string) (snd r))
  /\ (3 = 0 -> snd r = []).
Proof.
  apply (get_page_content_all_fail (down_net 0) "http://s/m/1.html" 3).
  intros k Hk. exists "refused"%string. reflexivity.
Defined.

Lemma page_url_inj_sample :
  page_url "http://s/c/A.html" 2 = page_url "http://s/c/A.html" 2 /\ 2 = 2.
Proof.
  split; [reflexivity|].
  apply (page_url_inj "http://s/c/A.html" 2 2). reflexivity.
Defined.

Lemma page_url_of_stem_sample :
  2 <> 1
  /\ (page_url ("http://s/c/A" ++ ".html") 2
      = ("http://s/c/A" ++ "/" ++ Py.str_of_nat 2 ++ ".html")%string
      <-> "http://s/c/A"%string = ""%string
          \/ exists pre c,
               "http://s/c/A"%string = (pre ++ String c "")%string
               /\ Py.mem_char c ".html" = false).
Proof.
  split; [discriminate|].
  apply (page_url_of_stem "http://s/c/A" 2). discriminate.
Defined.

Lemma page_url_of_categories_sample :
  let c :=
    mk_category "Bollywood Movies"
      "https://skymovieshd.mba/category/Bollywood-Movies.html" in
  In c CATEGORIES
  /\ (page_url (url c) 2
      = (url_stem (url c) ++ "/" ++ Py.str_of_nat 2 ++ ".html")%string
      <-> name c <> "Hot Short Film"%string)
  /\ (name c = "Hot Short Film"%string ->
      page_url (url c) 2
      = ("https://skymovieshd.mba/category/Hot-Short-Fi/"
         ++ Py.str_of_nat 2 ++ ".html")%string).
Proof.
  intros c.
  assert (Hin : In c CATEGORIES) by (left; reflexivity).
  split; [exact Hin|].
  apply (page_url_of_categories c 2 Hin). discriminate.
Defined.

Lemma scrape_category_page_requests_sample :
  let log :=
    snd (scrape_category_page sample_find_all sample_urljoin reversed
           sample_net "http://s/c/A.html" "A" 4) in
  Permutation (filter is_get log)
    (map (fun i => EvGet (page_url "http://s/c/A.html" i)) (seq 1 4))
  /\ length (filter is_get log) = 4
  /\ sleeps log = [].
Proof.
  apply (scrape_category_page_requests sample_find_all sample_urljoin
           reversed sample_net "http://s/c/A.html" "A" 4).
  exact completes_all_reversed.
Defined.

Lemma main_requests_sample :
  length (filter is_get
            (snd (main sample_find_all sample_urljoin sample_worlds)))
  = 160
  /\ sleeps (snd (main sample_find_all sample_urljoin sample_worlds))
     = repeat REQUEST_DELAY 8.
Proof.
  apply (main_requests sample_find_all sample_urljoin sample_worlds).
  intros c _. unfold sample_worlds.
  destruct (String.eqb (name c) "A").
  - exact completes_all_reversed.
  - exact completes_all_in_order.
Defined.

Lemma scrape_movie_detail_page_unreachable_sample :
  let result :=
    scrape_movie_detail_page sample_L_text sample_Let_text (down_net 0)
      "http://s/m/1.html" in
  fst result = []
  /\ length (filter is_get (snd result)) = 3.
Proof.
  apply (scrape_movie_detail_page_unreachable sample_L_text sample_Let_text
           (down_net 0) "http://s/m/1.html").
  intros k Hk. exists "refused"%string. reflexivity.
Defined.

